(** * Speech services: the STT and TTS fallback chains of
      [app/services/elevenlabs.py]

    A shallow embedding of the module.  The two entry points
    [transcribe_audio] and [text_to_speech] and their four helpers are
    written in a small monad that threads the module-level flag
    [_elevenlabs_blocked], records the calls made to the vendors and carries
    Python exceptions.  The vendors and the HTTP client are an oracle
    ([world]): it answers each call of [client.post] with a response, a
    transport error or an exception of the client itself, and each Edge-TTS
    synthesis with a stream of chunks. *)

From Stdlib Require Import String Ascii List Bool ZArith NArith Lia.
From Stdlib Require Import Strings.Byte.
From Stdlib Require Import PrimFloat.
From ExtLib Require Import Structures.Monad Structures.MonadExc
  Structures.MonadState.
Import ListNotations.
Import MonadNotation.
Local Open Scope string_scope.
Local Open Scope monad_scope.
Set Warnings "-register-all".

(** ** Python values used by the module *)

Definition bytes := list byte.

(** [needle in hay] on [str]. *)
Fixpoint str_in (needle hay : string) : bool :=
  if String.prefix needle hay then true
  else match hay with
       | EmptyString => false
       | String _ hay' => str_in needle hay'
       end.

(** [str.lower()] on one character.  A character is a code point below 256:
    the upper-case letters there are A-Z and U+00C0..U+00DE without the
    multiplication sign U+00D7, each 32 below its lower-case letter. *)
Definition lower_char (c : ascii) : ascii :=
  let n := N_of_ascii c in
  if ((65 <=? n) && (n <=? 90)
      || (192 <=? n) && (n <=? 222) && negb (n =? 215))%N
  then ascii_of_N (n + 32) else c.

Fixpoint lower (s : string) : string :=
  match s with
  | EmptyString => EmptyString
  | String c s' => String (lower_char c) (lower s')
  end.

(** The split of [s] at its last ["."], when there is one. *)
Fixpoint split_last_dot (s : string) : option (string * string) :=
  match s with
  | EmptyString => None
  | String c s' =>
      match split_last_dot s' with
      | Some (before, after) => Some (String c before, after)
      | None => if Ascii.eqb c "." then Some (EmptyString, s') else None
      end
  end.

(** [s.rsplit(".", 1)]: at most one split, from the right. *)
Definition rsplit_dot_1 (s : string) : list string :=
  match split_last_dot s with
  | Some (before, after) => [before; after]
  | None => [s]
  end.

(** [l[-1]] on a list of strings that is never empty here. *)
Definition last_item (l : list string) : string := List.last l EmptyString.

(** A dict with string keys, in insertion order; keys are distinct. *)
Fixpoint dict_get {V : Type} (d : list (string * V)) (k : string) : option V :=
  match d with
  | [] => None
  | (k', v) :: d' => if String.eqb k' k then Some v else dict_get d' k
  end.

(** [d.get(k, default)]. *)
Definition dict_get_default {V : Type} (d : list (string * V)) (k : string)
    (default : V) : V :=
  match dict_get d k with Some v => v | None => default end.

(** What [json.loads] builds: [None], [bool], [int], [float], [str], [list]
    and [dict]. *)
Inductive json : Type :=
| JNull
| JBool (b : bool)
| JInt (z : Z)
| JFloat (f : float)
| JStr (s : string)
| JArr (items : list json)
| JObj (fields : list (string * json)).

(** Truth value of an object in an [if]. *)
Definition truthy (v : json) : bool :=
  match v with
  | JNull => false
  | JBool b => b
  | JInt z => negb (z =? 0)%Z
  | JFloat f => negb (PrimFloat.eqb f 0%float)
  | JStr s => negb (String.eqb s "")
  | JArr items => match items with [] => false | _ => true end
  | JObj fields => match fields with [] => false | _ => true end
  end.

(** [len(v)]; [None] where Python raises [TypeError]. *)
Definition py_len (v : json) : option nat :=
  match v with
  | JStr s => Some (String.length s)
  | JArr items => Some (List.length items)
  | JObj fields => Some (List.length fields)
  | _ => None
  end.

(** A configuration constant: unset ([None]) or a string.  Both [None] and
    [""] are false in an [if]. *)
Definition setting := option string.

Definition is_set (c : setting) : bool :=
  match c with
  | Some s => negb (String.eqb s "")
  | None => false
  end.

(** [f"{c}"]. *)
Definition format_setting (c : setting) : string :=
  match c with Some s => s | None => "None" end.

(** The constants imported from [app.config], which is not part of the
    sources read here; they are parameters of every definition below. *)
Record config : Type := {
  ELEVENLABS_API_KEY : setting;
  ELEVENLABS_STT_URL : setting;
  ELEVENLABS_TTS_URL : setting;
  ELEVENLABS_VOICE_ID : setting;
  GROQ_API_KEY : setting
}.

(** ** The HTTP client and Edge-TTS, as the module sees them *)

Inductive request_body : Type :=
| Multipart (file_name : string) (file_content : bytes) (file_mime : string)
    (data : list (string * string))
| JsonBody (payload : json).

Record request : Type := {
  url : setting;
  headers : list (string * setting);
  req_body : request_body
}.

(** What [resp.json()] raises when the body does not parse:
    [json.JSONDecodeError] on malformed JSON, [UnicodeDecodeError] on a body
    that is not valid in its encoding, another [ValueError], or
    [RecursionError] on a body nested too deeply. *)
Inductive json_error : Type :=
| NotJson
| NotUnicode
| BadValue
| TooDeep.

(** An [httpx.Response]: the status, the raw body ([content]), its decoding
    to [str] ([text]) and the result of [json()]: the parsed value, or [None]
    where the body does not parse and [json()] raises [json_failure]. *)
Module Response.
Record t : Type := {
  status_code : Z;
  content : bytes;
  text : string;
  json_body : option json;
  json_failure : json_error
}.
End Response.
Definition response : Type := Response.t.

(** What [client.post] raises by itself, before anything is sent, none of
    them an [httpx.RequestError]: [httpx.InvalidURL] for a URL it cannot
    parse (a control character in the voice id, say), [UnicodeEncodeError]
    for a header value it cannot encode, [TypeError] for an argument of the
    wrong type (a URL that is [None]). *)
Inductive client_error : Type :=
| BadURL
| BadHeader
| BadArgument.

(** [client.post] returns a response, or raises a subclass of
    [httpx.RequestError] (connection, protocol and timeout errors; every call
    is made with [timeout=30.0]), or raises an error of the client. *)
Inductive post_outcome : Type :=
| PostResponse (r : response)
| PostRequestError
| PostClientError (e : client_error).

(** A chunk of [Communicate.stream()]: a dict with a ["type"] and, for audio
    chunks, a ["data"]. *)
Record chunk : Type := {
  chunk_type : string;
  chunk_data : option bytes
}.

(** A synthesis yields chunks and then ends, or raises. *)
Record stream_outcome : Type := {
  yielded : list chunk;
  stream_raises : bool
}.

Record world : Type := {
  http_post : request -> post_outcome;
  edge_stream : string -> string -> stream_outcome
}.

(** ** Effects *)

Inductive exn : Type :=
| HTTPStatusError (r : response)
| RequestError
| InvalidURL
| UnicodeEncodeError
| JSONDecodeError
| UnicodeDecodeError
| ValueError
| RecursionError
| AttributeError
| TypeError
| KeyError
| EdgeError.

Definition exn_of_client_error (e : client_error) : exn :=
  match e with
  | BadURL => InvalidURL
  | BadHeader => UnicodeEncodeError
  | BadArgument => TypeError
  end.

Definition exn_of_json_error (e : json_error) : exn :=
  match e with
  | NotJson => JSONDecodeError
  | NotUnicode => UnicodeDecodeError
  | BadValue => ValueError
  | TooDeep => RecursionError
  end.

Inductive provider : Type := ElevenLabsSTT | GroqSTT | ElevenLabsTTS.

Inductive level : Type := INFO | WARNING | ERROR.

(** What a run does that is visible outside: calls of [client.post], each
    with its request (sent unless the client raises an error of its own),
    syntheses started, log records. *)
Inductive event : Type :=
| HttpPost (p : provider) (req : request)
| EdgeStream (text voice : string)
| Log (lvl : level) (msg : string).

Definition trace := list event.

(** The module's only global. *)
Record state : Type := { _elevenlabs_blocked : bool }.

Definition initial_state : state := {| _elevenlabs_blocked := false |}.

Definition blocked_state : state := {| _elevenlabs_blocked := true |}.

Inductive result (A : Type) : Type :=
| Returns (a : A)
| Raises (e : exn).
Arguments Returns {A} a.
Arguments Raises {A} e.

Record outcome (A : Type) : Type := {
  value : result A;
  final : state;
  events : trace
}.
Arguments value {A} o.
Arguments final {A} o.
Arguments events {A} o.

(** A computation: from the global's value to a result, the global's new
    value and the events in order.  The global survives an exception. *)
Definition M (A : Type) : Type := state -> outcome A.

Definition m_ret {A : Type} (a : A) : M A :=
  fun st => {| value := Returns a; final := st; events := [] |}.

Definition m_bind {A B : Type} (m : M A) (k : A -> M B) : M B :=
  fun st =>
    let o := m st in
    match value o with
    | Returns a =>
        let o' := k a (final o) in
        {| value := value o'; final := final o';
           events := (events o ++ events o')%list |}
    | Raises e => {| value := Raises e; final := final o; events := events o |}
    end.

Definition m_raise {A : Type} (e : exn) : M A :=
  fun st => {| value := Raises e; final := st; events := [] |}.

(** [try: m  except ...: handler]. *)
Definition m_catch {A : Type} (m : M A) (handler : exn -> M A) : M A :=
  fun st =>
    let o := m st in
    match value o with
    | Returns a => o
    | Raises e =>
        let o' := handler e (final o) in
        {| value := value o'; final := final o';
           events := (events o ++ events o')%list |}
    end.

Definition emit (e : event) : M unit :=
  fun st => {| value := Returns tt; final := st; events := [e] |}.

#[global] Instance Monad_M : Monad M :=
  {| ret := @m_ret; bind := @m_bind |}.

#[global] Instance MonadExc_M : MonadExc exn M :=
  {| raise := @m_raise; catch := @m_catch |}.

#[global] Instance MonadState_M : MonadState state M :=
  {| get := fun st => {| value := Returns st; final := st; events := [] |};
     put := fun st' _ => {| value := Returns tt; final := st'; events := [] |} |}.

Definition logger (lvl : level) (msg : string) : M unit := emit (Log lvl msg).

(** ** The module *)

Definition EDGE_TTS_VOICE : string := "en-US-GuyNeural".

Definition GROQ_STT_URL : string :=
  "https://api.groq.com/openai/v1/audio/transcriptions".

(** [200 <= status_code <= 299]: the responses [raise_for_status] lets
    through. *)
Definition is_success (r : response) : bool :=
  ((200 <=? Response.status_code r) && (Response.status_code r <=? 299))%Z.

Definition raise_for_status (r : response) : M unit :=
  if is_success r then ret tt else raise (HTTPStatusError r).

(** [resp.json()]. *)
Definition resp_json (r : response) : M json :=
  match Response.json_body r with
  | Some j => ret j
  | None => raise (exn_of_json_error (Response.json_failure r))
  end.

(** [j.get(k, default)]: only a dict has [get]. *)
Definition json_get (j : json) (k : string) (default : json) : M json :=
  match j with
  | JObj fields => ret (dict_get_default fields k default)
  | _ => raise AttributeError
  end.

(** [len(v)] as an argument of a call. *)
Definition len (v : json) : M nat :=
  match py_len v with
  | Some n => ret n
  | None => raise TypeError
  end.

Section Services.

Variable cfg : config.
Variable w : world.

(** [await client.post(...)] inside [async with httpx.AsyncClient(...)]. *)
Definition post (p : provider) (req : request) : M response :=
  emit (HttpPost p req) ;;
  match http_post w req with
  | PostResponse r => ret r
  | PostRequestError => raise RequestError
  | PostClientError e => raise (exn_of_client_error e)
  end.

(** The request [_elevenlabs_stt] sends: lines 149-155 and 159-164. *)
Definition _elevenlabs_stt_request (audio_bytes : bytes) (filename : string)
    : request :=
  let ext := if str_in "." filename
             then lower (last_item (rsplit_dot_1 filename)) else "wav" in
  let mime_map :=
    [("wav", "audio/wav"); ("mp3", "audio/mpeg"); ("webm", "audio/webm");
     ("ogg", "audio/ogg"); ("oga", "audio/ogg"); ("opus", "audio/ogg");
     ("m4a", "audio/mp4"); ("flac", "audio/flac")] in
  let mime_type := dict_get_default mime_map ext "audio/ogg" in
  {| url := ELEVENLABS_STT_URL cfg;
     headers := [("xi-api-key", ELEVENLABS_API_KEY cfg)];
     req_body := Multipart filename audio_bytes mime_type
                   [("model_id", "scribe_v1")] |}.

Definition _elevenlabs_stt (audio_bytes : bytes) (filename : string)
    : M (option json) :=
  catch
    (resp <- post ElevenLabsSTT (_elevenlabs_stt_request audio_bytes filename) ;;
     raise_for_status resp ;;
     j <- resp_json resp ;;
     transcript <- json_get j "text" (JStr "") ;;
     if truthy transcript then
       _ <- len transcript ;;
       logger INFO "ElevenLabs STT successful (%d chars)." ;;
       ret (Some transcript)
     else ret None)
    (fun exc =>
       match exc with
       | HTTPStatusError r =>
           let body := Response.text r in
           (if str_in "unusual_activity" body || (Response.status_code r =? 401)%Z
            then put {| _elevenlabs_blocked := true |} ;;
                 logger WARNING
                   "ElevenLabs STT blocked — falling back to Groq Whisper."
            else logger ERROR "ElevenLabs STT HTTP %s: %s") ;;
           ret None
       | RequestError =>
           logger ERROR "ElevenLabs STT request error: %s" ;;
           ret None
       | _ => raise exc
       end).

(** The request [_groq_whisper_stt] sends: lines 190-196 and 200-209. *)
Definition _groq_whisper_stt_request (audio_bytes : bytes) (filename : string)
    : request :=
  let ext := if str_in "." filename
             then lower (last_item (rsplit_dot_1 filename)) else "wav" in
  let mime_map :=
    [("wav", "audio/wav"); ("mp3", "audio/mpeg"); ("webm", "audio/webm");
     ("ogg", "audio/ogg"); ("oga", "audio/ogg"); ("opus", "audio/ogg");
     ("m4a", "audio/mp4"); ("flac", "audio/flac")] in
  let mime_type := dict_get_default mime_map ext "audio/ogg" in
  {| url := Some GROQ_STT_URL;
     headers :=
       [("Authorization", Some ("Bearer " ++ format_setting (GROQ_API_KEY cfg)))];
     req_body := Multipart filename audio_bytes mime_type
                   [("model", "whisper-large-v3-turbo");
                    ("response_format", "json");
                    ("language", "en")] |}.

Definition _groq_whisper_stt (audio_bytes : bytes) (filename : string)
    : M (option json) :=
  catch
    (resp <- post GroqSTT (_groq_whisper_stt_request audio_bytes filename) ;;
     raise_for_status resp ;;
     result <- resp_json resp ;;
     transcript <- json_get result "text" (JStr "") ;;
     if truthy transcript then
       _ <- len transcript ;;
       logger INFO "Groq Whisper STT successful (%d chars)." ;;
       ret (Some transcript)
     else ret None)
    (fun exc =>
       match exc with
       | HTTPStatusError r =>
           logger ERROR "Groq Whisper STT HTTP %s: %s" ;;
           ret None
       | RequestError =>
           logger ERROR "Groq Whisper STT request error: %s" ;;
           ret None
       | _ => raise exc
       end).

(** The request [_elevenlabs_tts] sends: lines 88-102. *)
Definition _elevenlabs_tts_request (text : string) : request :=
  let tts_url := "https://api.elevenlabs.io/v1/text-to-speech/"
                 ++ format_setting (ELEVENLABS_VOICE_ID cfg) in
  let headers :=
    [("xi-api-key", ELEVENLABS_API_KEY cfg);
     ("Content-Type", Some "application/json")] in
  let payload :=
    JObj [("text", JStr text);
          ("model_id", JStr "eleven_turbo_v2_5");
          ("voice_settings",
           JObj [("stability", JFloat 0.5%float);
                 ("similarity_boost", JFloat 0.75%float)])] in
  {| url := Some tts_url; headers := headers; req_body := JsonBody payload |}.

Definition _elevenlabs_tts (text : string) : M (option bytes) :=
  catch
    (resp <- post ElevenLabsTTS (_elevenlabs_tts_request text) ;;
     raise_for_status resp ;;
     let audio_bytes := Response.content resp in
     logger INFO "ElevenLabs TTS successful (%d bytes)." ;;
     ret (Some audio_bytes))
    (fun exc =>
       match exc with
       | HTTPStatusError r =>
           let body := Response.text r in
           (if str_in "unusual_activity" body || (Response.status_code r =? 401)%Z
            then put {| _elevenlabs_blocked := true |} ;;
                 logger WARNING "ElevenLabs blocked — switching to Edge-TTS."
            else logger ERROR "ElevenLabs TTS HTTP error %s: %s") ;;
           ret None
       | RequestError =>
           logger ERROR "ElevenLabs TTS request error: %s" ;;
           ret None
       | _ => raise exc
       end).

(** The [async for] of [_edge_tts]: the chunks in order, the data of those
    whose type is ["audio"] appended to the buffer; then the end of the
    stream or its exception. *)
Fixpoint stream_loop (chunks : list chunk) (raises : bool) (buffer : bytes)
    : M bytes :=
  match chunks with
  | [] => if raises then raise EdgeError else ret buffer
  | chunk :: rest =>
      if String.eqb (chunk_type chunk) "audio" then
        match chunk_data chunk with
        | Some data => stream_loop rest raises (buffer ++ data)%list
        | None => raise KeyError
        end
      else stream_loop rest raises buffer
  end.

Definition _edge_tts (text : string) : M (option bytes) :=
  catch
    (emit (EdgeStream text EDGE_TTS_VOICE) ;;
     let communicate := edge_stream w text EDGE_TTS_VOICE in
     audio_bytes <-
       stream_loop (yielded communicate) (stream_raises communicate) [] ;;
     match audio_bytes with
     | _ :: _ =>
         logger INFO "Edge-TTS successful (%d bytes)." ;;
         ret (Some audio_bytes)
     | [] => ret None
     end)
    (fun exc =>
       logger ERROR "Edge-TTS error: %s" ;;
       ret None).

(** Lines 50-57 of [transcribe_audio]: what runs when ElevenLabs is not
    tried or has returned [None]. *)
Definition transcribe_audio_groq (audio_bytes : bytes) (filename : string)
    : M (option json) :=
  let all_failed : M (option json) :=
    logger ERROR "All STT providers failed." ;;
    ret None in
  if is_set (GROQ_API_KEY cfg) then
    result <- _groq_whisper_stt audio_bytes filename ;;
    match result with
    | Some transcript => ret (Some transcript)
    | None => all_failed
    end
  else all_failed.

Definition transcribe_audio (audio_bytes : bytes) (filename : string)
    : M (option json) :=
  st <- get ;;
  if is_set (ELEVENLABS_API_KEY cfg) && negb (_elevenlabs_blocked st) then
    result <- _elevenlabs_stt audio_bytes filename ;;
    match result with
    | Some transcript => ret (Some transcript)
    | None => transcribe_audio_groq audio_bytes filename
    end
  else transcribe_audio_groq audio_bytes filename.

(** The default of [filename]. *)
Definition transcribe_audio_default_filename : string := "audio.wav".

(** Lines 74-81 of [text_to_speech]: what runs when ElevenLabs is not tried
    or has returned [None]. *)
Definition text_to_speech_edge (text : string) : M (option bytes) :=
  result <- _edge_tts text ;;
  match result with
  | Some audio => ret (Some audio)
  | None =>
      logger WARNING
        "All server-side TTS failed — deferring to browser TTS." ;;
      ret None
  end.

Definition text_to_speech (text : string) : M (option bytes) :=
  st <- get ;;
  if negb (_elevenlabs_blocked st) && is_set (ELEVENLABS_API_KEY cfg)
     && is_set (ELEVENLABS_VOICE_ID cfg) then
    result <- _elevenlabs_tts text ;;
    match result with
    | Some audio => ret (Some audio)
    | None => text_to_speech_edge text
    end
  else text_to_speech_edge text.

End Services.

(** ** A process: calls served one after the other on the same global *)

Inductive call : Type :=
| Transcribe (audio_bytes : bytes) (filename : string)
| Synthesize (text : string).

Inductive reply : Type :=
| Transcript (t : option json)
| Speech (a : option bytes).

(** One call of an entry point; the vendors' behaviour [w] is that of the
    moment of the call. *)
Definition serve (cfg : config) (w : world) (c : call) : M reply :=
  match c with
  | Transcribe audio_bytes filename =>
      t <- transcribe_audio cfg w audio_bytes filename ;; ret (Transcript t)
  | Synthesize text =>
      a <- text_to_speech cfg w text ;; ret (Speech a)
  end.

(** The global after a sequence of calls, whatever each one returned or
    raised. *)
Fixpoint after (cfg : config) (calls : list (world * call)) (st : state)
    : state :=
  match calls with
  | [] => st
  | (w, c) :: rest => after cfg rest (final (serve cfg w c st))
  end.

(** ** Vocabulary of the properties *)

(** The condition under which an entry point tries ElevenLabs (lines 44
    and 69). *)
Definition tries_primary (cfg : config) (c : call) (st : state) : bool :=
  match c with
  | Transcribe _ _ =>
      is_set (ELEVENLABS_API_KEY cfg) && negb (_elevenlabs_blocked st)
  | Synthesize _ =>
      negb (_elevenlabs_blocked st) && is_set (ELEVENLABS_API_KEY cfg)
      && is_set (ELEVENLABS_VOICE_ID cfg)
  end.

Definition primary_of (c : call) : provider :=
  match c with
  | Transcribe _ _ => ElevenLabsSTT
  | Synthesize _ => ElevenLabsTTS
  end.

Definition primary_request (cfg : config) (c : call) : request :=
  match c with
  | Transcribe audio_bytes filename =>
      _elevenlabs_stt_request cfg audio_bytes filename
  | Synthesize text => _elevenlabs_tts_request cfg text
  end.

(** The answers on which the handlers of lines 112-116 and 172-176 set the
    flag: an error status, and 401 or the marker in the body. *)
Definition blocks (o : post_outcome) : bool :=
  match o with
  | PostResponse r =>
      negb (is_success r)
      && (str_in "unusual_activity" (Response.text r)
          || (Response.status_code r =? 401)%Z)
  | PostRequestError => false
  | PostClientError _ => false
  end.

(** The failures that are not blocking and that the handlers catch: a
    transport error, or an error status other than 401 with no marker in the
    body. *)
Definition transient_failure (o : post_outcome) : bool :=
  match o with
  | PostResponse r =>
      negb (is_success r)
      && negb (Response.status_code r =? 401)%Z
      && negb (str_in "unusual_activity" (Response.text r))
  | PostRequestError => true
  | PostClientError _ => false
  end.

Definition is_primary (p : provider) : bool :=
  match p with
  | ElevenLabsSTT | ElevenLabsTTS => true
  | GroqSTT => false
  end.

(** The events of a trace that are requests to a vendor. *)
Definition http_calls (tr : trace) : list (provider * request) :=
  flat_map (fun e => match e with
                     | HttpPost p req => [(p, req)]
                     | _ => []
                     end) tr.

Definition primary_calls (tr : trace) : list (provider * request) :=
  filter (fun pr => is_primary (fst pr)) (http_calls tr).

Definition groq_calls (tr : trace) : list (provider * request) :=
  filter (fun pr => negb (is_primary (fst pr))) (http_calls tr).

(** The extension both STT helpers compute (lines 149 and 190). *)
Definition extension (filename : string) : string :=
  if str_in "." filename
  then lower (last_item (rsplit_dot_1 filename)) else "wav".

(** The table both STT helpers look the extension up in (lines 150-154 and
    191-195). *)
Definition mime_table : list (string * string) :=
  [("wav", "audio/wav"); ("mp3", "audio/mpeg"); ("webm", "audio/webm");
   ("ogg", "audio/ogg"); ("oga", "audio/ogg"); ("opus", "audio/ogg");
   ("m4a", "audio/mp4"); ("flac", "audio/flac")].

(** The MIME type a request declares for its file. *)
Definition sent_mime (req : request) : option string :=
  match req_body req with
  | Multipart _ _ mime _ => Some mime
  | JsonBody _ => None
  end.

(** The data of the chunks tagged as audio, in order. *)
Definition audio_data (chunks : list chunk) : bytes :=
  flat_map (fun c => if String.eqb (chunk_type c) "audio"
                     then match chunk_data c with
                          | Some data => data
                          | None => []
                          end
                     else []) chunks.

(** Every chunk tagged as audio carries data. *)
Definition audio_chunks_have_data (chunks : list chunk) : bool :=
  forallb (fun c => if String.eqb (chunk_type c) "audio"
                    then match chunk_data c with
                         | Some _ => true
                         | None => false
                         end
                    else true) chunks.

(** The table as the specification lists it: the eight known extensions,
    and ["audio/ogg"] for any other. *)
Definition spec_mime_type (ext : string) : string :=
  if String.eqb ext "wav" then "audio/wav"
  else if String.eqb ext "mp3" then "audio/mpeg"
  else if String.eqb ext "webm" then "audio/webm"
  else if String.eqb ext "ogg" then "audio/ogg"
  else if String.eqb ext "oga" then "audio/ogg"
  else if String.eqb ext "opus" then "audio/ogg"
  else if String.eqb ext "m4a" then "audio/mp4"
  else if String.eqb ext "flac" then "audio/flac"
  else "audio/ogg".

(** Whether a chunk is tagged as audio (line 131). *)
Definition is_audio (c : chunk) : bool := String.eqb (chunk_type c) "audio".

(** The events of a trace that start an Edge-TTS synthesis. *)
Definition edge_streams (tr : trace) : list (string * string) :=
  flat_map (fun e => match e with
                     | EdgeStream text voice => [(text, voice)]
                     | _ => []
                     end) tr.

(** The record logged when the STT chain is exhausted (line 56). *)
Definition all_stt_failed : event := Log ERROR "All STT providers failed.".

(** The record logged when the TTS chain is exhausted (line 80). *)
Definition all_tts_failed : event :=
  Log WARNING "All server-side TTS failed — deferring to browser TTS.".

(** The values of the table of lines 150-154 and its default. *)
Definition known_mime_types : list string :=
  ["audio/wav"; "audio/mpeg"; "audio/webm"; "audio/ogg"; "audio/mp4";
   "audio/flac"].

(** The file a request uploads: its name and content. *)
Definition sent_file (req : request) : option (string * bytes) :=
  match req_body req with
  | Multipart name data _ _ => Some (name, data)
  | JsonBody _ => None
  end.

(** The text a request asks to synthesise. *)
Definition sent_text (req : request) : option json :=
  match req_body req with
  | JsonBody (JObj fields) => dict_get fields "text"
  | _ => None
  end.

(** Whether an answer is a success response. *)
Definition succeeds (o : post_outcome) : bool :=
  match o with
  | PostResponse r => is_success r
  | PostRequestError => false
  | PostClientError _ => false
  end.

(** Whether a result is [None]. *)
Definition gave_nothing {A : Type} (v : result (option A)) : bool :=
  match v with
  | Returns None => true
  | _ => false
  end.

(** Whether the settings an entry point needs for ElevenLabs are set (the
    part of lines 44 and 69 that does not read the flag). *)
Definition primary_configured (cfg : config) (c : call) : bool :=
  match c with
  | Transcribe _ _ => is_set (ELEVENLABS_API_KEY cfg)
  | Synthesize _ =>
      is_set (ELEVENLABS_API_KEY cfg) && is_set (ELEVENLABS_VOICE_ID cfg)
  end.

(** Whether a call, were it to ask ElevenLabs, would get a blocking
    answer. *)
Definition would_block (cfg : config) (wc : world * call) : bool :=
  primary_configured cfg (snd wc)
  && blocks (http_post (fst wc) (primary_request cfg (snd wc))).

(** The exceptions the handlers of the three HTTP helpers catch (lines
    112, 119, 172, 179, 218, 220). *)
Definition caught_by_handlers (e : exn) : bool :=
  match e with
  | HTTPStatusError _ | RequestError => true
  | _ => false
  end.

(** [e] is raised by the call of [client.post] with [req] or by the reading
    of its answer: an error of the client itself, or, on a success response,
    the failure of [resp.json()], the [AttributeError] of a body that is not
    an object, or the [TypeError] of a transcript without a length. *)
Definition raised_by_call (w : world) (req : request) (e : exn) : Prop :=
  (exists ce,
      http_post w req = PostClientError ce /\ e = exn_of_client_error ce)
  \/ (exists r,
        http_post w req = PostResponse r
        /\ is_success r = true
        /\ (e = exn_of_json_error (Response.json_failure r)
            \/ e = AttributeError \/ e = TypeError)).

(** Whether the client itself raises on a call. *)
Definition client_fails (o : post_outcome) : bool :=
  match o with
  | PostClientError _ => true
  | _ => false
  end.

(** ** Concrete configurations and vendors *)

Module Examples.

Definition configured : config :=
  {| ELEVENLABS_API_KEY := Some "xi-key";
     ELEVENLABS_STT_URL := Some "https://api.elevenlabs.io/v1/speech-to-text";
     ELEVENLABS_TTS_URL := Some "https://api.elevenlabs.io/v1/text-to-speech";
     ELEVENLABS_VOICE_ID := Some "voice-1";
     GROQ_API_KEY := Some "gsk-key" |}.

Definition unconfigured : config :=
  {| ELEVENLABS_API_KEY := None;
     ELEVENLABS_STT_URL := None;
     ELEVENLABS_TTS_URL := None;
     ELEVENLABS_VOICE_ID := None;
     GROQ_API_KEY := Some "" |}.

(** A response with a textual body [raw], which parses to [parsed], or is
    malformed JSON. *)
Definition answer (status : Z) (raw : string) (parsed : option json)
    : response :=
  {| Response.status_code := status;
     Response.content := list_byte_of_string raw;
     Response.text := raw;
     Response.json_body := parsed;
     Response.json_failure := NotJson |}.

(** The double quote character. *)
Definition quote : string := String "034"%char EmptyString.

(** A transcript [s] in a JSON body. *)
Definition transcript_answer (s : string) : response :=
  answer 200
    ("{" ++ quote ++ "text" ++ quote ++ ": " ++ quote ++ s ++ quote ++ "}")
    (Some (JObj [("text", JStr s)])).

Definition silent_stream : stream_outcome :=
  {| yielded := []; stream_raises := false |}.

Definition spoken_stream : stream_outcome :=
  {| yielded :=
       [ {| chunk_type := "audio"; chunk_data := Some [x49; x44]%byte |};
         {| chunk_type := "WordBoundary"; chunk_data := None |};
         {| chunk_type := "audio"; chunk_data := Some [x33]%byte |} ];
     stream_raises := false |}.

(** Vendors: [elevenlabs] answers every request but those sent to Groq's
    URL, which [groq] answers; the client refuses a URL that is [None];
    [edge] is every synthesis. *)
Definition vendors (elevenlabs groq : post_outcome) (edge : stream_outcome)
    : world :=
  {| http_post := fun req =>
       match url req with
       | Some u => if String.eqb u GROQ_STT_URL then groq else elevenlabs
       | None => PostClientError BadArgument
       end;
     edge_stream := fun _ _ => edge |}.

(** Both vendors up: ElevenLabs hears "help me", Groq "other". *)
Definition all_up : world :=
  vendors (PostResponse (transcript_answer "help me"))
    (PostResponse (transcript_answer "other")) spoken_stream.

(** ElevenLabs rejects the key. *)
Definition unauthorized : world :=
  vendors (PostResponse (answer 401 "Unauthorized" None))
    (PostResponse (transcript_answer "other")) spoken_stream.

(** ElevenLabs is down; Edge-TTS yields no audio. *)
Definition server_error : world :=
  vendors (PostResponse (answer 500 "Internal Server Error" None))
    (PostResponse (transcript_answer "other")) silent_stream.

(** ElevenLabs transcribes speech that contains the marker. *)
Definition marker_spoken : world :=
  vendors (PostResponse (transcript_answer "log unusual_activity today"))
    (PostResponse (transcript_answer "other")) spoken_stream.

(** A gateway answers 200 with a page that is not JSON. *)
Definition not_json : world :=
  vendors (PostResponse (answer 200 "<html>Service</html>" None))
    (PostResponse (transcript_answer "other")) spoken_stream.

(** ElevenLabs answers 200 with an empty body; Edge-TTS yields no audio. *)
Definition empty_audio : world :=
  vendors (PostResponse (answer 200 "" None))
    (PostResponse (transcript_answer "other")) silent_stream.

(** ElevenLabs is down and the gateway in front of Groq answers 200 with a
    page that is not JSON. *)
Definition groq_not_json : world :=
  vendors (PostResponse (answer 500 "Internal Server Error" None))
    (PostResponse (answer 200 "<html>Service</html>" None)) spoken_stream.

(** ElevenLabs times out; Edge-TTS speaks. *)
Definition timeout : world :=
  vendors PostRequestError (PostResponse (transcript_answer "other"))
    spoken_stream.

(** A voice id read with its line end: the client cannot parse the URL. *)
Definition newline : string := String "010"%char EmptyString.

Definition bad_voice : config :=
  {| ELEVENLABS_API_KEY := Some "xi-key";
     ELEVENLABS_STT_URL := Some "https://api.elevenlabs.io/v1/speech-to-text";
     ELEVENLABS_TTS_URL := Some "https://api.elevenlabs.io/v1/text-to-speech";
     ELEVENLABS_VOICE_ID := Some ("voice-1" ++ newline);
     GROQ_API_KEY := Some "gsk-key" |}.

(** The client refuses the URL of every request to ElevenLabs; Groq and
    Edge-TTS are up. *)
Definition refused_url : world :=
  vendors (PostClientError BadURL) (PostResponse (transcript_answer "other"))
    spoken_stream.

End Examples.

(** * Properties *)

(** ** Extensions and MIME types *)

Section Mime.

Lemma str_in_dot_cons (c : ascii) (s : string) :
  str_in "." (String c s) = Ascii.eqb c "." || str_in "." s.
Proof.
  cbn [str_in String.prefix].
  destruct (ascii_dec "." c) as [<- | Hne].
  - now destruct s.
  - destruct (Ascii.eqb_spec c ".") as [-> | _]; [congruence | reflexivity].
Qed.

Lemma split_last_dot_no_dot (s : string) :
  str_in "." s = false -> split_last_dot s = None.
Proof.
  induction s as [| c s IH]; [reflexivity |].
  rewrite str_in_dot_cons. intros H.
  apply orb_false_iff in H as [Hc Hs].
  cbn [split_last_dot]. now rewrite (IH Hs), Hc.
Qed.

Lemma str_in_dot_append (base ext : string) :
  str_in "." (base ++ "." ++ ext) = true.
Proof.
  induction base as [| c base IH].
  - cbn [append]. now rewrite str_in_dot_cons.
  - change (String c base ++ "." ++ ext)
      with (String c (base ++ "." ++ ext)).
    rewrite str_in_dot_cons, IH. apply orb_true_r.
Qed.

Lemma split_last_dot_append (base ext : string) :
  str_in "." ext = false ->
  split_last_dot (base ++ "." ++ ext) = Some (base, ext).
Proof.
  intros Hext. induction base as [| c base IH].
  - cbn [append split_last_dot].
    now rewrite (split_last_dot_no_dot ext Hext).
  - change (String c base ++ "." ++ ext)
      with (String c (base ++ "." ++ ext)).
    cbn [split_last_dot]. now rewrite IH.
Qed.

Lemma extension_append (base ext : string) :
  str_in "." ext = false -> extension (base ++ "." ++ ext) = lower ext.
Proof.
  intros Hext. unfold extension, rsplit_dot_1.
  now rewrite str_in_dot_append, (split_last_dot_append base ext Hext).
Qed.

Lemma lower_char_idempotent (c : ascii) :
  lower_char (lower_char c) = lower_char c.
Proof. destruct c as [[] [] [] [] [] [] [] []]; reflexivity. Qed.

Lemma lower_char_dot (c : ascii) :
  Ascii.eqb (lower_char c) "." = Ascii.eqb c ".".
Proof. destruct c as [[] [] [] [] [] [] [] []]; reflexivity. Qed.

Lemma lower_idempotent (s : string) : lower (lower s) = lower s.
Proof.
  induction s as [| c s IH]; cbn [lower]; [reflexivity |].
  now rewrite lower_char_idempotent, IH.
Qed.

Lemma str_in_dot_lower (s : string) : str_in "." (lower s) = str_in "." s.
Proof.
  induction s as [| c s IH]; [reflexivity |].
  cbn [lower]. now rewrite !str_in_dot_cons, lower_char_dot, IH.
Qed.

(** The lookup of the code is the table of the specification. *)
Lemma mime_lookup_spec (ext : string) :
  dict_get_default mime_table ext "audio/ogg" = spec_mime_type ext.
Proof.
  unfold dict_get_default, mime_table, spec_mime_type. cbn [dict_get].
  rewrite !(String.eqb_sym ext).
  repeat match goal with
         | |- context [String.eqb ?k ext] => destruct (String.eqb k ext)
         end; reflexivity.
Qed.

Variable cfg : config.
Variable audio_bytes : bytes.

Lemma _elevenlabs_stt_sent_mime (filename : string) :
  sent_mime (_elevenlabs_stt_request cfg audio_bytes filename)
  = Some (spec_mime_type (extension filename)).
Proof.
  rewrite <- mime_lookup_spec. reflexivity.
Qed.

Lemma _groq_whisper_stt_sent_mime (filename : string) :
  sent_mime (_groq_whisper_stt_request cfg audio_bytes filename)
  = Some (spec_mime_type (extension filename)).
Proof.
  rewrite <- mime_lookup_spec. reflexivity.
Qed.

End Mime.

(** C7.  For every filename, the MIME type that each of the two STT helpers
    declares for the file is the entry of the fixed table for the extension
    (wav, mp3, webm, ogg, oga, opus, m4a, flac), and ["audio/ogg"] for every
    other extension; ["note.flac"] is sent as ["audio/flac"] and
    ["note.xyz"] as ["audio/ogg"]. *)
Theorem mime_type_by_fixed_table :
  forall (cfg : config) (audio_bytes : bytes) (filename : string),
    (sent_mime (_elevenlabs_stt_request cfg audio_bytes filename)
     = Some (spec_mime_type (extension filename))
     /\ sent_mime (_groq_whisper_stt_request cfg audio_bytes filename)
        = Some (spec_mime_type (extension filename)))
    /\ (sent_mime (_elevenlabs_stt_request cfg audio_bytes "note.flac")
        = Some "audio/flac"
        /\ sent_mime (_groq_whisper_stt_request cfg audio_bytes "note.flac")
           = Some "audio/flac")
    /\ (sent_mime (_elevenlabs_stt_request cfg audio_bytes "note.xyz")
        = Some "audio/ogg"
        /\ sent_mime (_groq_whisper_stt_request cfg audio_bytes "note.xyz")
           = Some "audio/ogg").
Proof.
  intros cfg audio_bytes filename. split; [| split].
  - split.
    + apply _elevenlabs_stt_sent_mime.
    + apply _groq_whisper_stt_sent_mime.
  - split; reflexivity.
  - split; reflexivity.
Qed.

(** C10.  A filename with no ['.'] is given the extension ["wav"] and sent
    as ["audio/wav"] by both STT helpers, not as the default ["audio/ogg"];
    and the extension is matched whatever its case: a name and the same name
    with its extension in lower case are sent with the same MIME type, which
    is the table's entry for the lower-case extension, so ["NOTE.FLAC"] is
    sent as ["audio/flac"]. *)
Theorem no_dot_is_wav_and_case_is_ignored :
  forall (cfg : config) (audio_bytes : bytes) (filename base ext : string),
    str_in "." filename = false ->
    str_in "." ext = false ->
    (extension filename = "wav"
     /\ sent_mime (_elevenlabs_stt_request cfg audio_bytes filename)
        = Some "audio/wav"
     /\ sent_mime (_groq_whisper_stt_request cfg audio_bytes filename)
        = Some "audio/wav")
    /\ (sent_mime (_elevenlabs_stt_request cfg audio_bytes (base ++ "." ++ ext))
        = Some (spec_mime_type (lower ext))
        /\ sent_mime (_groq_whisper_stt_request cfg audio_bytes
                        (base ++ "." ++ ext))
           = Some (spec_mime_type (lower ext)))
    /\ (sent_mime (_elevenlabs_stt_request cfg audio_bytes (base ++ "." ++ ext))
        = sent_mime (_elevenlabs_stt_request cfg audio_bytes
                       (base ++ "." ++ lower ext))
        /\ sent_mime (_groq_whisper_stt_request cfg audio_bytes
                        (base ++ "." ++ ext))
           = sent_mime (_groq_whisper_stt_request cfg audio_bytes
                          (base ++ "." ++ lower ext)))
    /\ (sent_mime (_elevenlabs_stt_request cfg audio_bytes "NOTE.FLAC")
        = Some "audio/flac"
        /\ sent_mime (_groq_whisper_stt_request cfg audio_bytes "NOTE.FLAC")
           = Some "audio/flac").
Proof.
  intros cfg audio_bytes filename base ext Hname Hext.
  assert (Hwav : extension filename = "wav")
    by (unfold extension; now rewrite Hname).
  assert (Hlow : str_in "." (lower ext) = false)
    by (now rewrite str_in_dot_lower).
  rewrite !_elevenlabs_stt_sent_mime, !_groq_whisper_stt_sent_mime.
  rewrite Hwav, (extension_append base ext Hext),
    (extension_append base (lower ext) Hlow), lower_idempotent.
  repeat split; reflexivity.
Qed.

Lemma no_dot_is_wav_and_case_is_ignored_witness :
  str_in "." "recording" = false
  /\ str_in "." "Mp3" = false
  /\ sent_mime (_elevenlabs_stt_request
                  {| ELEVENLABS_API_KEY := Some "key";
                     ELEVENLABS_STT_URL := Some "https://stt.example";
                     ELEVENLABS_TTS_URL := None;
                     ELEVENLABS_VOICE_ID := None;
                     GROQ_API_KEY := None |} [] "recording")
     = Some "audio/wav"
  /\ sent_mime (_elevenlabs_stt_request
                  {| ELEVENLABS_API_KEY := Some "key";
                     ELEVENLABS_STT_URL := Some "https://stt.example";
                     ELEVENLABS_TTS_URL := None;
                     ELEVENLABS_VOICE_ID := None;
                     GROQ_API_KEY := None |} [] ("a.b" ++ "." ++ "Mp3"))
     = Some "audio/mpeg".
Proof.
  pose proof (no_dot_is_wav_and_case_is_ignored
                {| ELEVENLABS_API_KEY := Some "key";
                   ELEVENLABS_STT_URL := Some "https://stt.example";
                   ELEVENLABS_TTS_URL := None;
                   ELEVENLABS_VOICE_ID := None;
                   GROQ_API_KEY := None |} [] "recording" "a.b" "Mp3"
                eq_refl eq_refl) as [[_ [Hwav _]] [[Hmime _] _]].
  split; [reflexivity | split; [reflexivity | split]].
  - exact Hwav.
  - exact Hmime.
Defined.

(** ** Runs of the helpers *)

(** Unfolds the monad's operations and keeps the helpers folded. *)
Ltac run_m :=
  cbv [bind ret raise catch get put Monad_M MonadExc_M MonadState_M
       m_bind m_ret m_raise m_catch emit logger post raise_for_status
       resp_json json_get len];
  cbn [value final events app].

(** Splits on the next test of a helper's body. *)
Ltac split_case :=
  match goal with
  | |- context [match http_post ?w ?r with _ => _ end] =>
      destruct (http_post w r) eqn:?
  | |- context [if is_success ?r then _ else _] =>
      destruct (is_success r) eqn:?
  | |- context [match Response.json_body ?r with _ => _ end] =>
      destruct (Response.json_body r) eqn:?
  | |- context [match ?j with JObj _ => _ | _ => _ end] =>
      is_var j; destruct j
  | |- context [if truthy ?v then _ else _] => destruct (truthy v) eqn:?
  | |- context [match py_len ?v with _ => _ end] =>
      destruct (py_len v) eqn:?
  | |- context [if (?a || ?b)%bool then _ else _] =>
      destruct (a || b)%bool eqn:?
  | |- context [exn_of_json_error ?e] =>
      destruct e eqn:?; cbn [exn_of_json_error]
  | |- context [exn_of_client_error ?e] =>
      destruct e eqn:?; cbn [exn_of_client_error]
  end;
  cbn [value final events app].

Lemma outcome_eta {A : Type} (o : outcome A) :
  o = {| value := value o; final := final o; events := events o |}.
Proof. now destruct o. Qed.

Lemma state_eta (st : state) :
  st = {| _elevenlabs_blocked := _elevenlabs_blocked st |}.
Proof. now destruct st. Qed.

Lemma http_calls_app (tr1 tr2 : trace) :
  http_calls (tr1 ++ tr2)%list = (http_calls tr1 ++ http_calls tr2)%list.
Proof. apply flat_map_app. Qed.

Lemma primary_calls_app (tr1 tr2 : trace) :
  primary_calls (tr1 ++ tr2)%list
  = (primary_calls tr1 ++ primary_calls tr2)%list.
Proof. unfold primary_calls. now rewrite http_calls_app, filter_app. Qed.

Section Helpers.

Variable cfg : config.
Variable w : world.

(** *** ElevenLabs STT *)

Lemma _elevenlabs_stt_flag audio_bytes filename st :
  _elevenlabs_blocked (final (_elevenlabs_stt cfg w audio_bytes filename st))
  = _elevenlabs_blocked st
    || blocks (http_post w (_elevenlabs_stt_request cfg audio_bytes filename)).
Proof.
  unfold _elevenlabs_stt, blocks.
  generalize (_elevenlabs_stt_request cfg audio_bytes filename) as req.
  intros req. run_m.
  repeat split_case; cbn [negb andb _elevenlabs_blocked];
    rewrite ?orb_false_r, ?orb_true_r; reflexivity.
Qed.

Lemma _elevenlabs_stt_http_calls audio_bytes filename st :
  http_calls (events (_elevenlabs_stt cfg w audio_bytes filename st))
  = [(ElevenLabsSTT, _elevenlabs_stt_request cfg audio_bytes filename)].
Proof.
  unfold _elevenlabs_stt.
  generalize (_elevenlabs_stt_request cfg audio_bytes filename) as req.
  intros req. run_m. repeat split_case; reflexivity.
Qed.

Lemma _elevenlabs_stt_transcript audio_bytes filename st r fields s :
  http_post w (_elevenlabs_stt_request cfg audio_bytes filename)
  = PostResponse r ->
  is_success r = true ->
  Response.json_body r = Some (JObj fields) ->
  dict_get fields "text" = Some (JStr s) ->
  s <> "" ->
  value (_elevenlabs_stt cfg w audio_bytes filename st)
  = Returns (Some (JStr s)).
Proof.
  intros Hpost Hok Hjson Htext Hs.
  unfold _elevenlabs_stt. run_m. rewrite Hpost. cbn [value final events app].
  rewrite Hok. cbn [value final events app].
  rewrite Hjson. cbn [value final events app].
  unfold dict_get_default. rewrite Htext. cbn [truthy py_len].
  destruct (String.eqb_spec s "") as [-> | _]; [congruence | reflexivity].
Qed.

Lemma _elevenlabs_stt_failed audio_bytes filename st :
  match http_post w (_elevenlabs_stt_request cfg audio_bytes filename) with
  | PostResponse r => is_success r = false
  | PostRequestError => True
  | PostClientError _ => False
  end ->
  value (_elevenlabs_stt cfg w audio_bytes filename st) = Returns None.
Proof.
  unfold _elevenlabs_stt.
  generalize (_elevenlabs_stt_request cfg audio_bytes filename) as req.
  intros req. run_m.
  destruct (http_post w req) as [r | | e]; cbn [value final events app];
    [| reflexivity | contradiction].
  intros ->. cbn [value final events app]. now split_case.
Qed.

(** *** Groq Whisper STT *)

Lemma _groq_whisper_stt_final audio_bytes filename st :
  final (_groq_whisper_stt cfg w audio_bytes filename st) = st.
Proof.
  unfold _groq_whisper_stt.
  generalize (_groq_whisper_stt_request cfg audio_bytes filename) as req.
  intros req. run_m. repeat split_case; reflexivity.
Qed.

Lemma _groq_whisper_stt_http_calls audio_bytes filename st :
  http_calls (events (_groq_whisper_stt cfg w audio_bytes filename st))
  = [(GroqSTT, _groq_whisper_stt_request cfg audio_bytes filename)].
Proof.
  unfold _groq_whisper_stt.
  generalize (_groq_whisper_stt_request cfg audio_bytes filename) as req.
  intros req. run_m. repeat split_case; reflexivity.
Qed.

(** *** ElevenLabs TTS *)

Lemma _elevenlabs_tts_flag text st :
  _elevenlabs_blocked (final (_elevenlabs_tts cfg w text st))
  = _elevenlabs_blocked st
    || blocks (http_post w (_elevenlabs_tts_request cfg text)).
Proof.
  unfold _elevenlabs_tts, blocks.
  generalize (_elevenlabs_tts_request cfg text) as req.
  intros req. run_m.
  repeat split_case; cbn [negb andb _elevenlabs_blocked];
    rewrite ?orb_false_r, ?orb_true_r; reflexivity.
Qed.

Lemma _elevenlabs_tts_http_calls text st :
  http_calls (events (_elevenlabs_tts cfg w text st))
  = [(ElevenLabsTTS, _elevenlabs_tts_request cfg text)].
Proof.
  unfold _elevenlabs_tts.
  generalize (_elevenlabs_tts_request cfg text) as req.
  intros req. run_m. repeat split_case; reflexivity.
Qed.

(** [_elevenlabs_tts] returns the body of a success response, empty or not,
    and [None] on an error status or a transport error; an error of the
    client leaves it as an exception. *)
Lemma _elevenlabs_tts_value text st :
  value (_elevenlabs_tts cfg w text st)
  = match http_post w (_elevenlabs_tts_request cfg text) with
    | PostResponse r =>
        Returns (if is_success r then Some (Response.content r) else None)
    | PostRequestError => Returns None
    | PostClientError e => Raises (exn_of_client_error e)
    end.
Proof.
  unfold _elevenlabs_tts.
  generalize (_elevenlabs_tts_request cfg text) as req.
  intros req. run_m. repeat split_case; reflexivity.
Qed.

(** *** Edge-TTS *)

Lemma stream_loop_final chunks raises buffer st :
  final (stream_loop chunks raises buffer st) = st.
Proof.
  revert buffer.
  induction chunks as [| c chunks IH]; intros buffer; cbn [stream_loop].
  - now destruct raises.
  - destruct (String.eqb (chunk_type c) "audio"); [| apply IH].
    destruct (chunk_data c); [apply IH | reflexivity].
Qed.

Lemma stream_loop_events chunks raises buffer st :
  events (stream_loop chunks raises buffer st) = [].
Proof.
  revert buffer.
  induction chunks as [| c chunks IH]; intros buffer; cbn [stream_loop].
  - now destruct raises.
  - destruct (String.eqb (chunk_type c) "audio"); [| apply IH].
    destruct (chunk_data c); [apply IH | reflexivity].
Qed.

(** What the loop returns, when it returns, is the buffer followed by the
    data of the audio chunks. *)
Lemma stream_loop_returns chunks raises buffer st audio :
  value (stream_loop chunks raises buffer st) = Returns audio ->
  audio = (buffer ++ audio_data chunks)%list.
Proof.
  revert buffer.
  induction chunks as [| c chunks IH]; intros buffer; cbn [stream_loop].
  - destruct raises; cbn; [discriminate |].
    intros [= <-]. now rewrite app_nil_r.
  - unfold audio_data. cbn [flat_map]. fold (audio_data chunks).
    destruct (String.eqb (chunk_type c) "audio"); [| apply IH].
    destruct (chunk_data c) as [data |]; [| discriminate].
    intros H. rewrite (IH _ H). now rewrite app_assoc.
Qed.

(** A stream that ends and whose audio chunks carry data is read to its
    end. *)
Lemma stream_loop_complete chunks buffer st :
  audio_chunks_have_data chunks = true ->
  value (stream_loop chunks false buffer st)
  = Returns (buffer ++ audio_data chunks)%list.
Proof.
  revert buffer.
  induction chunks as [| c chunks IH]; intros buffer;
    cbn [stream_loop audio_chunks_have_data forallb].
  - intros _. cbn. now rewrite app_nil_r.
  - unfold audio_data. cbn [flat_map]. fold (audio_data chunks).
    fold (audio_chunks_have_data chunks).
    destruct (String.eqb (chunk_type c) "audio"); [| apply IH].
    destruct (chunk_data c) as [data |]; [| discriminate].
    cbn [andb]. intros H. rewrite (IH _ H). now rewrite app_assoc.
Qed.

Lemma _edge_tts_final text st : final (_edge_tts w text st) = st.
Proof.
  unfold _edge_tts. run_m.
  set (s := edge_stream w text EDGE_TTS_VOICE).
  pose proof (stream_loop_final (yielded s) (stream_raises s) [] st) as Hf.
  destruct (stream_loop (yielded s) (stream_raises s) [] st)
    as [[audio | e] st' tr]; cbn in *; subst st'; [| reflexivity].
  now destruct audio.
Qed.

Lemma _edge_tts_events text st :
  exists logs,
    events (_edge_tts w text st)
    = EdgeStream text EDGE_TTS_VOICE :: logs
    /\ http_calls logs = [].
Proof.
  unfold _edge_tts. run_m.
  set (s := edge_stream w text EDGE_TTS_VOICE).
  pose proof (stream_loop_events (yielded s) (stream_raises s) [] st) as He.
  destruct (stream_loop (yielded s) (stream_raises s) [] st)
    as [[audio | e] st' tr]; cbn in *; subst tr.
  - destruct audio; cbn; eexists; split; reflexivity.
  - cbn. eexists; split; reflexivity.
Qed.

(** [_edge_tts] raises nothing, and what it returns is not empty. *)
Lemma _edge_tts_value text st :
  value (_edge_tts w text st) = Returns None
  \/ exists audio,
       audio <> []
       /\ value (_edge_tts w text st) = Returns (Some audio).
Proof.
  unfold _edge_tts. run_m.
  set (s := edge_stream w text EDGE_TTS_VOICE).
  destruct (stream_loop (yielded s) (stream_raises s) [] st)
    as [[audio | e] st' tr]; cbn; [| now left].
  destruct audio as [| b audio]; cbn; [now left |].
  right. exists (b :: audio). now split.
Qed.

Lemma _edge_tts_audio text st :
  let s := edge_stream w text EDGE_TTS_VOICE in
  stream_raises s = false ->
  audio_chunks_have_data (yielded s) = true ->
  audio_data (yielded s) <> [] ->
  value (_edge_tts w text st) = Returns (Some (audio_data (yielded s))).
Proof.
  intros s Hend Hdata Hne.
  unfold _edge_tts. run_m. fold s. rewrite Hend.
  pose proof (stream_loop_complete (yielded s) [] st Hdata) as Hv.
  cbn [app] in Hv.
  destruct (stream_loop (yielded s) false [] st) as [v st' tr].
  cbn in Hv. subst v. cbn.
  destruct (audio_data (yielded s)); [congruence | reflexivity].
Qed.

Lemma _edge_tts_no_audio text st :
  audio_data (yielded (edge_stream w text EDGE_TTS_VOICE)) = [] ->
  value (_edge_tts w text st) = Returns None.
Proof.
  intros Hnone. unfold _edge_tts. run_m.
  set (s := edge_stream w text EDGE_TTS_VOICE) in *.
  pose proof (stream_loop_returns (yielded s) (stream_raises s) [] st) as Hr.
  destruct (stream_loop (yielded s) (stream_raises s) [] st)
    as [[audio | e] st' tr]; cbn in *; [| reflexivity].
  rewrite (Hr audio eq_refl), Hnone. reflexivity.
Qed.

End Helpers.

(** ** Runs of the entry points *)

Section EntryPoints.

Variable cfg : config.
Variable w : world.

Lemma transcribe_audio_groq_final audio_bytes filename st :
  final (transcribe_audio_groq cfg w audio_bytes filename st) = st.
Proof.
  unfold transcribe_audio_groq. run_m.
  pose proof (_groq_whisper_stt_final cfg w audio_bytes filename st) as Hf.
  destruct (is_set (GROQ_API_KEY cfg)); [| reflexivity].
  destruct (_groq_whisper_stt cfg w audio_bytes filename st)
    as [[[t |] | e] st' tr]; cbn [value final events] in *; now subst st'.
Qed.

Lemma transcribe_audio_groq_http_calls audio_bytes filename st :
  http_calls (events (transcribe_audio_groq cfg w audio_bytes filename st))
  = if is_set (GROQ_API_KEY cfg)
    then [(GroqSTT, _groq_whisper_stt_request cfg audio_bytes filename)]
    else [].
Proof.
  unfold transcribe_audio_groq. run_m.
  pose proof (_groq_whisper_stt_http_calls cfg w audio_bytes filename st)
    as Hc.
  destruct (is_set (GROQ_API_KEY cfg)); [| reflexivity].
  destruct (_groq_whisper_stt cfg w audio_bytes filename st)
    as [[[t |] | e] st' tr]; cbn [value final events] in *; rewrite ?http_calls_app, ?Hc;
    reflexivity.
Qed.

(** The step returns what Groq returns when Groq is configured, and [None]
    when it is not. *)
Lemma transcribe_audio_groq_value audio_bytes filename st :
  value (transcribe_audio_groq cfg w audio_bytes filename st)
  = if is_set (GROQ_API_KEY cfg)
    then value (_groq_whisper_stt cfg w audio_bytes filename st)
    else Returns None.
Proof.
  unfold transcribe_audio_groq. run_m.
  destruct (is_set (GROQ_API_KEY cfg)); [| reflexivity].
  now destruct (_groq_whisper_stt cfg w audio_bytes filename st)
    as [[[t |] | e] st' tr].
Qed.

Lemma transcribe_audio_not_tried audio_bytes filename st :
  tries_primary cfg (Transcribe audio_bytes filename) st = false ->
  transcribe_audio cfg w audio_bytes filename st
  = transcribe_audio_groq cfg w audio_bytes filename st.
Proof.
  cbn [tries_primary]. intros Hgate.
  unfold transcribe_audio. run_m. rewrite Hgate.
  symmetry. apply outcome_eta.
Qed.

Lemma transcribe_audio_tried audio_bytes filename st :
  tries_primary cfg (Transcribe audio_bytes filename) st = true ->
  let p := _elevenlabs_stt cfg w audio_bytes filename st in
  let o := transcribe_audio cfg w audio_bytes filename st in
  match value p with
  | Returns (Some transcript) =>
      value o = Returns (Some transcript)
      /\ final o = final p /\ events o = events p
  | Returns None =>
      let g := transcribe_audio_groq cfg w audio_bytes filename (final p) in
      value o = value g
      /\ final o = final p /\ events o = (events p ++ events g)%list
  | Raises e =>
      value o = Raises e /\ final o = final p /\ events o = events p
  end.
Proof.
  intros Hgate p o. cbn [tries_primary] in Hgate. subst o.
  unfold transcribe_audio. run_m. rewrite Hgate. fold p.
  destruct (value p) as [[t |] | e] eqn:Hp; cbn [value final events].
  - now rewrite app_nil_r.
  - pose proof (transcribe_audio_groq_final audio_bytes filename (final p))
      as Hf.
    destruct (transcribe_audio_groq cfg w audio_bytes filename (final p))
      as [[v | e] st' tr]; cbn [value final events] in *; now subst st'.
  - easy.
Qed.

Lemma text_to_speech_edge_final text st :
  final (text_to_speech_edge w text st) = st.
Proof.
  unfold text_to_speech_edge. run_m.
  pose proof (_edge_tts_final w text st) as Hf.
  destruct (_edge_tts w text st) as [[[a |] | e] st' tr]; cbn [value final events] in *;
    now subst st'.
Qed.

Lemma text_to_speech_edge_value text st :
  value (text_to_speech_edge w text st) = value (_edge_tts w text st).
Proof.
  unfold text_to_speech_edge. run_m.
  now destruct (_edge_tts w text st) as [[[a |] | e] st' tr].
Qed.

Lemma text_to_speech_edge_events text st :
  exists logs,
    events (text_to_speech_edge w text st)
    = EdgeStream text EDGE_TTS_VOICE :: logs
    /\ http_calls logs = [].
Proof.
  unfold text_to_speech_edge. run_m.
  destruct (_edge_tts_events w text st) as [logs [He Hl]].
  destruct (_edge_tts w text st) as [[[a |] | e] st' tr]; cbn [value final events] in *;
    subst tr; cbn; eexists; (split; [reflexivity |]);
    rewrite ?app_nil_r, ?http_calls_app, ?Hl; reflexivity.
Qed.

Lemma text_to_speech_not_tried text st :
  tries_primary cfg (Synthesize text) st = false ->
  text_to_speech cfg w text st = text_to_speech_edge w text st.
Proof.
  cbn [tries_primary]. intros Hgate.
  unfold text_to_speech. run_m. rewrite Hgate.
  symmetry. apply outcome_eta.
Qed.

Lemma text_to_speech_tried text st :
  tries_primary cfg (Synthesize text) st = true ->
  let p := _elevenlabs_tts cfg w text st in
  let o := text_to_speech cfg w text st in
  match value p with
  | Returns (Some audio) =>
      value o = Returns (Some audio)
      /\ final o = final p /\ events o = events p
  | Returns None =>
      let e := text_to_speech_edge w text (final p) in
      value o = value e
      /\ final o = final p /\ events o = (events p ++ events e)%list
  | Raises e =>
      value o = Raises e /\ final o = final p /\ events o = events p
  end.
Proof.
  intros Hgate p o. cbn [tries_primary] in Hgate. subst o.
  unfold text_to_speech. run_m. rewrite Hgate. fold p.
  destruct (value p) as [[a |] | e] eqn:Hp; cbn [value final events].
  - now rewrite app_nil_r.
  - pose proof (text_to_speech_edge_final text (final p)) as Hf.
    destruct (text_to_speech_edge w text (final p))
      as [[v | e] st' tr]; cbn [value final events] in *; now subst st'.
  - easy.
Qed.

End EntryPoints.

(** ** Calls of a process *)

Section Process.

Variable cfg : config.

Lemma serve_final w c st :
  final (serve cfg w c st)
  = match c with
    | Transcribe audio_bytes filename =>
        final (transcribe_audio cfg w audio_bytes filename st)
    | Synthesize text => final (text_to_speech cfg w text st)
    end.
Proof.
  destruct c as [audio_bytes filename | text]; unfold serve; run_m.
  - now destruct (value (transcribe_audio cfg w audio_bytes filename st)).
  - now destruct (value (text_to_speech cfg w text st)).
Qed.

Lemma serve_events w c st :
  events (serve cfg w c st)
  = match c with
    | Transcribe audio_bytes filename =>
        events (transcribe_audio cfg w audio_bytes filename st)
    | Synthesize text => events (text_to_speech cfg w text st)
    end.
Proof.
  destruct c as [audio_bytes filename | text]; unfold serve; run_m.
  - destruct (value (transcribe_audio cfg w audio_bytes filename st));
      cbn [events]; now rewrite ?app_nil_r.
  - destruct (value (text_to_speech cfg w text st));
      cbn [events]; now rewrite ?app_nil_r.
Qed.

(** The flag after a call: set before, or set by the answer to the request
    the call sent to ElevenLabs. *)
Lemma serve_flag w c st :
  _elevenlabs_blocked (final (serve cfg w c st))
  = _elevenlabs_blocked st
    || tries_primary cfg c st && blocks (http_post w (primary_request cfg c)).
Proof.
  rewrite serve_final.
  destruct (tries_primary cfg c st) eqn:Hgate; cbn [andb].
  - destruct c as [audio_bytes filename | text]; cbn [primary_request].
    + pose proof (transcribe_audio_tried cfg w audio_bytes filename st Hgate)
        as H. cbv zeta in H.
      rewrite <- _elevenlabs_stt_flag.
      destruct (value (_elevenlabs_stt cfg w audio_bytes filename st))
        as [[t |] | e]; now destruct H as [_ [-> _]].
    + pose proof (text_to_speech_tried cfg w text st Hgate) as H.
      cbv zeta in H.
      rewrite <- _elevenlabs_tts_flag.
      destruct (value (_elevenlabs_tts cfg w text st))
        as [[a |] | e]; now destruct H as [_ [-> _]].
  - rewrite orb_false_r.
    destruct c as [audio_bytes filename | text].
    + now rewrite (transcribe_audio_not_tried cfg w _ _ _ Hgate),
        transcribe_audio_groq_final.
    + now rewrite (text_to_speech_not_tried cfg w _ _ Hgate),
        text_to_speech_edge_final.
Qed.

Lemma primary_calls_groq_step w audio_bytes filename st :
  primary_calls (events (transcribe_audio_groq cfg w audio_bytes filename st))
  = [].
Proof.
  unfold primary_calls. rewrite transcribe_audio_groq_http_calls.
  now destruct (is_set (GROQ_API_KEY cfg)).
Qed.

Lemma primary_calls_edge_step w text st :
  primary_calls (events (text_to_speech_edge w text st)) = [].
Proof.
  destruct (text_to_speech_edge_events w text st) as [logs [-> Hl]].
  unfold primary_calls. cbn [http_calls flat_map app].
  fold (http_calls logs). now rewrite Hl.
Qed.

(** The requests a call sends to ElevenLabs: one when the gate is open,
    none when it is closed. *)
Lemma serve_primary_calls w c st :
  primary_calls (events (serve cfg w c st))
  = if tries_primary cfg c st
    then [(primary_of c, primary_request cfg c)] else [].
Proof.
  rewrite serve_events.
  destruct (tries_primary cfg c st) eqn:Hgate.
  - destruct c as [audio_bytes filename | text];
      cbn [primary_request primary_of].
    + pose proof (transcribe_audio_tried cfg w audio_bytes filename st Hgate)
        as H. cbv zeta in H.
      assert (Hp : primary_calls
                     (events (_elevenlabs_stt cfg w audio_bytes filename st))
                   = [(ElevenLabsSTT,
                       _elevenlabs_stt_request cfg audio_bytes filename)])
        by (unfold primary_calls; now rewrite _elevenlabs_stt_http_calls).
      destruct (value (_elevenlabs_stt cfg w audio_bytes filename st))
        as [[t |] | e]; destruct H as [_ [_ ->]];
        rewrite ?primary_calls_app, ?primary_calls_groq_step, Hp;
        reflexivity.
    + pose proof (text_to_speech_tried cfg w text st Hgate) as H.
      cbv zeta in H.
      assert (Hp : primary_calls (events (_elevenlabs_tts cfg w text st))
                   = [(ElevenLabsTTS, _elevenlabs_tts_request cfg text)])
        by (unfold primary_calls; now rewrite _elevenlabs_tts_http_calls).
      destruct (value (_elevenlabs_tts cfg w text st))
        as [[a |] | e]; destruct H as [_ [_ ->]];
        rewrite ?primary_calls_app, ?primary_calls_edge_step, Hp;
        reflexivity.
  - destruct c as [audio_bytes filename | text].
    + rewrite (transcribe_audio_not_tried cfg w _ _ _ Hgate).
      apply primary_calls_groq_step.
    + rewrite (text_to_speech_not_tried cfg w _ _ Hgate).
      apply primary_calls_edge_step.
Qed.

Lemma tries_primary_blocked c st :
  _elevenlabs_blocked st = true -> tries_primary cfg c st = false.
Proof.
  intros Hb. destruct c; cbn [tries_primary]; rewrite Hb; cbn [negb andb];
    [apply andb_false_r | reflexivity].
Qed.

(** Once set, the flag stays set through any sequence of calls. *)
Lemma after_blocked calls st :
  _elevenlabs_blocked st = true ->
  _elevenlabs_blocked (after cfg calls st) = true.
Proof.
  revert st.
  induction calls as [| [w c] calls IH]; intros st Hb; cbn [after];
    [exact Hb |].
  apply IH. now rewrite serve_flag, Hb.
Qed.

Lemma transient_failure_not_blocking o :
  transient_failure o = true -> blocks o = false.
Proof.
  destruct o as [r | | e]; cbn [transient_failure blocks];
    [| reflexivity | discriminate].
  destruct (is_success r); cbn [negb andb]; [discriminate |].
  destruct (Response.status_code r =? 401)%Z; cbn [negb andb];
    [discriminate |].
  now destruct (str_in "unusual_activity" (Response.text r)).
Qed.

End Process.

(** ** The STT chain *)

(** C1.  When ElevenLabs is configured, the flag is not set and the
    ElevenLabs STT call answers with a non-empty transcript, then
    [transcribe_audio] returns exactly that transcript, and the only request
    it sends is the one to ElevenLabs: Groq is not called. *)
Theorem primary_transcript_is_returned :
  forall (cfg : config) (w : world) (audio_bytes : bytes) (filename : string)
         (st : state) (r : response) (fields : list (string * json))
         (s : string),
    is_set (ELEVENLABS_API_KEY cfg) = true ->
    _elevenlabs_blocked st = false ->
    http_post w (_elevenlabs_stt_request cfg audio_bytes filename)
    = PostResponse r ->
    is_success r = true ->
    Response.json_body r = Some (JObj fields) ->
    dict_get fields "text" = Some (JStr s) ->
    s <> "" ->
    let o := transcribe_audio cfg w audio_bytes filename st in
    value o = Returns (Some (JStr s))
    /\ groq_calls (events o) = []
    /\ http_calls (events o)
       = [(ElevenLabsSTT, _elevenlabs_stt_request cfg audio_bytes filename)].
Proof.
  intros cfg w audio_bytes filename st r fields s Hkey Hflag Hpost Hok Hjson
    Htext Hs o.
  assert (Hgate : tries_primary cfg (Transcribe audio_bytes filename) st = true)
    by (cbn [tries_primary]; now rewrite Hkey, Hflag).
  pose proof (transcribe_audio_tried cfg w audio_bytes filename st Hgate) as H.
  cbv zeta in H.
  rewrite (_elevenlabs_stt_transcript cfg w audio_bytes filename st r fields s
             Hpost Hok Hjson Htext Hs) in H.
  destruct H as [Hv [_ He]]. subst o.
  unfold groq_calls.
  rewrite Hv, He, _elevenlabs_stt_http_calls. now repeat split.
Qed.

Lemma primary_transcript_is_returned_witness :
  value (transcribe_audio Examples.configured Examples.all_up [] "call.webm"
           initial_state)
  = Returns (Some (JStr "help me")).
Proof.
  exact (proj1 (primary_transcript_is_returned
                  Examples.configured Examples.all_up [] "call.webm"
                  initial_state
                  (Examples.transcript_answer "help me")
                  [("text", JStr "help me")] "help me"
                  eq_refl eq_refl eq_refl eq_refl eq_refl eq_refl
                  ltac:(discriminate))).
Defined.

(** C4.  When neither ELEVENLABS_API_KEY nor GROQ_API_KEY is set,
    [transcribe_audio] returns [None] and sends no request to any vendor. *)
Theorem no_stt_provider_configured :
  forall (cfg : config) (w : world) (audio_bytes : bytes) (filename : string)
         (st : state),
    is_set (ELEVENLABS_API_KEY cfg) = false ->
    is_set (GROQ_API_KEY cfg) = false ->
    let o := transcribe_audio cfg w audio_bytes filename st in
    value o = Returns None /\ http_calls (events o) = [].
Proof.
  intros cfg w audio_bytes filename st Hkey Hgroq o. subst o.
  assert (Hgate : tries_primary cfg (Transcribe audio_bytes filename) st
                  = false)
    by (cbn [tries_primary]; now rewrite Hkey).
  rewrite (transcribe_audio_not_tried cfg w _ _ _ Hgate).
  rewrite transcribe_audio_groq_value, transcribe_audio_groq_http_calls.
  now rewrite Hgroq.
Qed.

Lemma no_stt_provider_configured_witness :
  value (transcribe_audio Examples.unconfigured Examples.all_up [] "call.webm"
           initial_state)
  = Returns None
  /\ http_calls
       (events (transcribe_audio Examples.unconfigured Examples.all_up []
                  "call.webm" initial_state))
     = [].
Proof.
  exact (no_stt_provider_configured Examples.unconfigured Examples.all_up []
           "call.webm" initial_state eq_refl eq_refl).
Defined.

(** A 401 is an error status. *)
Lemma unauthorized_is_error (r : response) :
  Response.status_code r = 401%Z -> is_success r = false.
Proof. unfold is_success. now intros ->. Qed.

(** C2, as stated, fails: a success response whose body contains the marker
    (here a transcript in which the marker is spoken) is returned as the
    transcript; Groq is not called, the flag stays unset and the next call
    asks ElevenLabs again. *)
Lemma marker_in_success_body_is_not_blocking :
  http_post Examples.marker_spoken
    (_elevenlabs_stt_request Examples.configured [] "call.webm")
  = PostResponse (Examples.transcript_answer "log unusual_activity today")
  /\ str_in "unusual_activity"
       (Response.text (Examples.transcript_answer "log unusual_activity today"))
     = true
  /\ value (transcribe_audio Examples.configured Examples.marker_spoken []
              "call.webm" initial_state)
     = Returns (Some (JStr "log unusual_activity today"))
  /\ groq_calls
       (events (transcribe_audio Examples.configured Examples.marker_spoken []
                  "call.webm" initial_state))
     = []
  /\ final (transcribe_audio Examples.configured Examples.marker_spoken []
              "call.webm" initial_state)
     = initial_state
  /\ primary_calls
       (events
          (transcribe_audio Examples.configured Examples.all_up [] "next.webm"
             (final (transcribe_audio Examples.configured
                       Examples.marker_spoken [] "call.webm" initial_state))))
     = [(ElevenLabsSTT,
         _elevenlabs_stt_request Examples.configured [] "next.webm")].
Proof. repeat split; vm_compute; reflexivity. Qed.

(** C2, amended.  When the ElevenLabs STT call is made and answered with
    HTTP 401, or with an error status and a body that contains the marker,
    the flag is set and the call goes on with the Groq step: it returns what
    that step returns, and its requests are the one to ElevenLabs followed by
    the one to Groq when Groq is configured.  Every later call of the
    process, after any calls in between and whatever the vendors would
    answer, sends nothing to ElevenLabs, and a later [transcribe_audio] is
    the Groq step alone.  A success response never sets the flag, whether
    or not its body contains the marker. *)
Theorem blocking_answer_falls_through_and_sticks :
  forall (cfg : config) (w : world) (audio_bytes : bytes) (filename : string)
         (st : state) (r : response),
    is_set (ELEVENLABS_API_KEY cfg) = true ->
    _elevenlabs_blocked st = false ->
    http_post w (_elevenlabs_stt_request cfg audio_bytes filename)
    = PostResponse r ->
    (Response.status_code r = 401%Z
     \/ (is_success r = false
         /\ str_in "unusual_activity" (Response.text r) = true)) ->
    let o := transcribe_audio cfg w audio_bytes filename st in
    (final o = blocked_state
     /\ value o
        = value (transcribe_audio_groq cfg w audio_bytes filename blocked_state)
     /\ http_calls (events o)
        = (ElevenLabsSTT, _elevenlabs_stt_request cfg audio_bytes filename)
          :: (if is_set (GROQ_API_KEY cfg)
              then [(GroqSTT,
                     _groq_whisper_stt_request cfg audio_bytes filename)]
              else []))
    /\ (forall (calls : list (world * call)) (w' : world) (c : call),
          primary_calls (events (serve cfg w' c (after cfg calls (final o))))
          = [])
    /\ (forall (calls : list (world * call)) (w' : world)
               (audio_bytes' : bytes) (filename' : string),
          transcribe_audio cfg w' audio_bytes' filename'
            (after cfg calls (final o))
          = transcribe_audio_groq cfg w' audio_bytes' filename'
              (after cfg calls (final o)))
    /\ (forall (w' : world) (audio_bytes' : bytes) (filename' : string)
               (st' : state) (r' : response),
          http_post w' (_elevenlabs_stt_request cfg audio_bytes' filename')
          = PostResponse r' ->
          is_success r' = true ->
          _elevenlabs_blocked
            (final (transcribe_audio cfg w' audio_bytes' filename' st'))
          = _elevenlabs_blocked st').
Proof.
  intros cfg w audio_bytes filename st r Hkey Hflag Hpost Hblock o.
  assert (Hgate : tries_primary cfg (Transcribe audio_bytes filename) st = true)
    by (cbn [tries_primary]; now rewrite Hkey, Hflag).
  assert (Herr : is_success r = false).
  { destruct Hblock as [H401 | [Herr _]];
      [now apply unauthorized_is_error | exact Herr]. }
  assert (Hblocks : blocks (http_post w (_elevenlabs_stt_request cfg audio_bytes
                                           filename)) = true).
  { rewrite Hpost. cbn [blocks]. rewrite Herr. cbn [negb andb].
    destruct Hblock as [-> | [_ ->]]; [apply orb_true_r | reflexivity]. }
  pose proof (transcribe_audio_tried cfg w audio_bytes filename st Hgate) as H.
  cbv zeta in H.
  rewrite (_elevenlabs_stt_failed cfg w audio_bytes filename st) in H
    by (now rewrite Hpost).
  destruct H as [Hv [Hf He]]. fold o in Hv, Hf, He.
  assert (Hfinal : final o = blocked_state).
  { rewrite (state_eta (final o)), Hf, _elevenlabs_stt_flag, Hblocks.
    now rewrite orb_true_r. }
  assert (Hlater : forall calls,
             _elevenlabs_blocked (after cfg calls (final o)) = true)
    by (intros calls; apply after_blocked; now rewrite Hfinal).
  split; [split; [| split] | split; [| split]].
  - exact Hfinal.
  - rewrite Hv, <- Hf, Hfinal. reflexivity.
  - rewrite He, http_calls_app, _elevenlabs_stt_http_calls,
      transcribe_audio_groq_http_calls. reflexivity.
  - intros calls w' c.
    now rewrite serve_primary_calls, tries_primary_blocked.
  - intros calls w' audio_bytes' filename'.
    apply transcribe_audio_not_tried. now apply tries_primary_blocked.
  - intros w' audio_bytes' filename' st' r' Hpost' Hok'.
    pose proof (serve_flag cfg w' (Transcribe audio_bytes' filename') st')
      as Hserve.
    rewrite serve_final in Hserve. cbn [primary_request] in Hserve.
    rewrite Hpost' in Hserve. cbn [blocks] in Hserve.
    rewrite Hok' in Hserve. cbn [negb andb] in Hserve.
    now rewrite andb_false_r, orb_false_r in Hserve.
Qed.

Lemma blocking_answer_falls_through_and_sticks_witness :
  value (transcribe_audio Examples.configured Examples.unauthorized []
           "call.webm" initial_state)
  = Returns (Some (JStr "other"))
  /\ primary_calls
       (events
          (serve Examples.configured Examples.all_up
             (Transcribe [] "next.webm")
             (after Examples.configured
                [(Examples.all_up, Synthesize "stay calm")]
                (final (transcribe_audio Examples.configured
                          Examples.unauthorized [] "call.webm"
                          initial_state)))))
     = [].
Proof.
  pose proof (blocking_answer_falls_through_and_sticks
                Examples.configured Examples.unauthorized [] "call.webm"
                initial_state (Examples.answer 401 "Unauthorized" None)
                eq_refl eq_refl eq_refl (or_introl eq_refl))
    as [[_ [Hvalue _]] [Hlater _]].
  split.
  - rewrite Hvalue. reflexivity.
  - exact (Hlater [(Examples.all_up, Synthesize "stay calm")]
             Examples.all_up (Transcribe [] "next.webm")).
Defined.

(** ** The flag *)

(** C3, as stated, fails: it is not true that every answer to a call made to
    ElevenLabs that is a 401 or carries the marker sets the flag.  A success
    response whose body contains the marker leaves it unset. *)
Lemma marker_alone_does_not_set_the_flag :
  ~ (forall (cfg : config) (w : world) (c : call) (st : state) (r : response),
       tries_primary cfg c st = true ->
       http_post w (primary_request cfg c) = PostResponse r ->
       (Response.status_code r = 401%Z
        \/ str_in "unusual_activity" (Response.text r) = true) ->
       _elevenlabs_blocked (final (serve cfg w c st)) = true).
Proof.
  intros H.
  specialize (H Examples.configured Examples.marker_spoken
                (Transcribe [] "call.webm") initial_state
                (Examples.transcript_answer "log unusual_activity today")
                eq_refl eq_refl (or_intror eq_refl)).
  vm_compute in H. discriminate H.
Qed.

(** C3, amended.  The flag is a latch shared by the two chains.  It starts
    unset.  After a call of either entry point it is set exactly when it was
    set before, or the call sent its request to ElevenLabs and the answer was
    an error response (a status outside 200..299) that is a 401 or carries
    the marker in its body; the call sends that request exactly when
    ElevenLabs is configured and the flag is unset.  Nothing unsets it: from
    the set state it is set after any sequence of calls. *)
Theorem blocked_flag_is_a_latch :
  forall (cfg : config) (w : world) (c : call) (st : state)
         (calls : list (world * call)),
    _elevenlabs_blocked initial_state = false
    /\ _elevenlabs_blocked (final (serve cfg w c st))
       = _elevenlabs_blocked st
         || tries_primary cfg c st
            && blocks (http_post w (primary_request cfg c))
    /\ primary_calls (events (serve cfg w c st))
       = (if tries_primary cfg c st
          then [(primary_of c, primary_request cfg c)] else [])
    /\ _elevenlabs_blocked (after cfg calls blocked_state) = true.
Proof.
  intros cfg w c st calls. repeat split.
  - apply serve_flag.
  - apply serve_primary_calls.
  - now apply after_blocked.
Qed.

(** C9.  When a call sends its request to ElevenLabs and the answer is a
    failure that is not blocking (a transport error or timeout, or an error
    status other than 401 with no marker in the body), the flag is left as it
    was, unset, and the chain goes on: [transcribe_audio] returns what the
    Groq step returns, having called Groq when it is configured, and
    [text_to_speech] starts an Edge-TTS synthesis and returns what
    [_edge_tts] returns. *)
Theorem transient_failure_leaves_flag_unset :
  forall (cfg : config) (w : world) (c : call) (st : state),
    tries_primary cfg c st = true ->
    transient_failure (http_post w (primary_request cfg c)) = true ->
    final (serve cfg w c st) = st
    /\ _elevenlabs_blocked (final (serve cfg w c st)) = false
    /\ match c with
       | Transcribe audio_bytes filename =>
           value (transcribe_audio cfg w audio_bytes filename st)
           = value (transcribe_audio_groq cfg w audio_bytes filename st)
           /\ http_calls
                (events (transcribe_audio cfg w audio_bytes filename st))
              = (ElevenLabsSTT,
                 _elevenlabs_stt_request cfg audio_bytes filename)
                :: (if is_set (GROQ_API_KEY cfg)
                    then [(GroqSTT,
                           _groq_whisper_stt_request cfg audio_bytes filename)]
                    else [])
       | Synthesize text =>
           value (text_to_speech cfg w text st)
           = value (text_to_speech_edge w text st)
           /\ In (EdgeStream text EDGE_TTS_VOICE)
                (events (text_to_speech cfg w text st))
       end.
Proof.
  intros cfg w c st Hgate Htransient.
  pose proof (transient_failure_not_blocking _ Htransient) as Hblocks.
  assert (Hunset : _elevenlabs_blocked st = false).
  { destruct (_elevenlabs_blocked st) eqn:Hb; [| reflexivity].
    now rewrite (tries_primary_blocked cfg c st Hb) in Hgate. }
  assert (Hflag : _elevenlabs_blocked (final (serve cfg w c st))
                  = _elevenlabs_blocked st)
    by (now rewrite serve_flag, Hblocks, andb_false_r, orb_false_r).
  assert (Hfinal : final (serve cfg w c st) = st)
    by (now rewrite (state_eta (final (serve cfg w c st))), Hflag,
          <- state_eta).
  split; [exact Hfinal | split; [now rewrite Hflag |]].
  rewrite serve_final in Hfinal.
  destruct c as [audio_bytes filename | text]; cbn [primary_request] in *.
  - pose proof (transcribe_audio_tried cfg w audio_bytes filename st Hgate)
      as H. cbv zeta in H.
    rewrite (_elevenlabs_stt_failed cfg w audio_bytes filename st) in H.
    + destruct H as [Hv [Hf He]]. rewrite <- Hf, Hfinal in Hv, He.
      split; [exact Hv |].
      now rewrite He, http_calls_app, _elevenlabs_stt_http_calls,
        transcribe_audio_groq_http_calls.
    + destruct (http_post w (_elevenlabs_stt_request cfg audio_bytes filename))
        as [r | | e]; [| exact I | discriminate Htransient].
      cbn [transient_failure] in Htransient.
      now destruct (is_success r).
  - pose proof (text_to_speech_tried cfg w text st Hgate) as H.
    cbv zeta in H.
    assert (Hnone : value (_elevenlabs_tts cfg w text st) = Returns None).
    { rewrite _elevenlabs_tts_value.
      destruct (http_post w (_elevenlabs_tts_request cfg text)) as [r | | e];
        [| reflexivity | discriminate Htransient].
      cbn [transient_failure] in Htransient.
      now destruct (is_success r). }
    rewrite Hnone in H. destruct H as [Hv [Hf He]].
    rewrite <- Hf, Hfinal in Hv, He.
    split; [exact Hv |].
    destruct (text_to_speech_edge_events w text st) as [logs [Hlogs _]].
    rewrite He, Hlogs. apply in_or_app. right. now left.
Qed.

Lemma transient_failure_leaves_flag_unset_witness :
  final (serve Examples.configured Examples.server_error
           (Transcribe [] "call.webm") initial_state)
  = initial_state
  /\ final (serve Examples.configured Examples.timeout
              (Synthesize "stay calm") initial_state)
     = initial_state.
Proof.
  split.
  - exact (proj1 (transient_failure_leaves_flag_unset
                    Examples.configured Examples.server_error
                    (Transcribe [] "call.webm") initial_state
                    eq_refl eq_refl)).
  - exact (proj1 (transient_failure_leaves_flag_unset
                    Examples.configured Examples.timeout
                    (Synthesize "stay calm") initial_state
                    eq_refl eq_refl)).
Defined.

(** ** The TTS chain *)

Lemma stream_loop_value_any_state chunks raises buffer st st' :
  value (stream_loop chunks raises buffer st)
  = value (stream_loop chunks raises buffer st').
Proof.
  revert buffer.
  induction chunks as [| c chunks IH]; intros buffer; cbn [stream_loop].
  - now destruct raises.
  - destruct (String.eqb (chunk_type c) "audio"); [| apply IH].
    destruct (chunk_data c); [apply IH | reflexivity].
Qed.

(** What [_edge_tts] returns does not depend on the flag. *)
Lemma _edge_tts_value_any_state w text st st' :
  value (_edge_tts w text st) = value (_edge_tts w text st').
Proof.
  unfold _edge_tts. run_m.
  set (s := edge_stream w text EDGE_TTS_VOICE).
  pose proof (stream_loop_value_any_state (yielded s) (stream_raises s) []
                st st') as Hv.
  destruct (stream_loop (yielded s) (stream_raises s) [] st)
    as [v1 st1 tr1].
  destruct (stream_loop (yielded s) (stream_raises s) [] st')
    as [v2 st2 tr2].
  cbn [value] in *. subst v2.
  destruct v1 as [[| b audio] | e]; reflexivity.
Qed.

(** X20.  Whenever the ElevenLabs step of [text_to_speech] is skipped (the
    flag is set, the key or the voice is not configured) or
    [_elevenlabs_tts] returns [None] (as it does on an error status and on a
    transport error), an Edge-TTS synthesis of the text is started and
    [text_to_speech] returns what [_edge_tts] returns; when the stream ends
    normally with audio data that is not empty, the result is exactly the
    data of the audio chunks, in order. *)
Theorem edge_tts_takes_over :
  forall (cfg : config) (w : world) (text : string) (st : state),
    (_elevenlabs_blocked st = true
     \/ is_set (ELEVENLABS_API_KEY cfg) = false
     \/ is_set (ELEVENLABS_VOICE_ID cfg) = false
     \/ value (_elevenlabs_tts cfg w text st) = Returns None) ->
    In (EdgeStream text EDGE_TTS_VOICE) (events (text_to_speech cfg w text st))
    /\ value (text_to_speech cfg w text st) = value (_edge_tts w text st)
    /\ (stream_raises (edge_stream w text EDGE_TTS_VOICE) = false ->
        audio_chunks_have_data (yielded (edge_stream w text EDGE_TTS_VOICE))
        = true ->
        audio_data (yielded (edge_stream w text EDGE_TTS_VOICE)) <> [] ->
        value (text_to_speech cfg w text st)
        = Returns
            (Some (audio_data (yielded (edge_stream w text EDGE_TTS_VOICE))))).
Proof.
  intros cfg w text st Hnothing.
  assert (Hedge : exists st',
             value (text_to_speech cfg w text st)
             = value (text_to_speech_edge w text st')
             /\ exists pre,
                  events (text_to_speech cfg w text st)
                  = (pre ++ events (text_to_speech_edge w text st'))%list).
  { destruct (tries_primary cfg (Synthesize text) st) eqn:Hgate.
    - pose proof (text_to_speech_tried cfg w text st Hgate) as H.
      cbv zeta in H. cbn [tries_primary] in Hgate.
      destruct Hnothing as [Hb | [Hk | [Hv | Hnone]]].
      + now rewrite Hb in Hgate.
      + now rewrite Hk, andb_false_r in Hgate.
      + now rewrite Hv, andb_false_r in Hgate.
      + rewrite Hnone in H. destruct H as [Hv [_ He]].
        exists (final (_elevenlabs_tts cfg w text st)).
        split; [exact Hv | eexists; exact He].
    - rewrite (text_to_speech_not_tried cfg w text st Hgate).
      exists st. split; [reflexivity | now exists []]. }
  destruct Hedge as [st' [Hv [pre He]]].
  assert (Hvalue : value (text_to_speech cfg w text st)
                   = value (_edge_tts w text st))
    by (now rewrite Hv, text_to_speech_edge_value,
          (_edge_tts_value_any_state w text st' st)).
  split; [| split].
  - destruct (text_to_speech_edge_events w text st') as [logs [Hlogs _]].
    rewrite He, Hlogs. apply in_or_app. right. now left.
  - exact Hvalue.
  - intros Hend Hdata Haudio.
    rewrite Hvalue. now apply _edge_tts_audio.
Qed.

Lemma edge_tts_takes_over_witness :
  value (text_to_speech Examples.configured Examples.timeout "stay calm"
           initial_state)
  = Returns (Some [x49; x44; x33]%byte).
Proof.
  exact (proj2 (proj2 (edge_tts_takes_over
                         Examples.configured Examples.timeout "stay calm"
                         initial_state
                         (or_intror (or_intror (or_intror eq_refl)))))
           eq_refl eq_refl ltac:(discriminate)).
Defined.

(** C5.  The code at the failing input: the voice id carries a line end,
    so the client raises [httpx.InvalidURL] for the URL of line 88.  Neither
    [except] clause of [_elevenlabs_tts] catches it: the primary step has
    failed and returned nothing, yet [text_to_speech] raises the exception
    and starts no Edge-TTS synthesis, although Edge-TTS would have given
    audio. *)
Theorem primary_exception_skips_edge_tts :
  http_post Examples.refused_url
    (_elevenlabs_tts_request Examples.bad_voice "stay calm")
  = PostClientError BadURL
  /\ value (text_to_speech Examples.bad_voice Examples.refused_url "stay calm"
              initial_state)
     = Raises InvalidURL
  /\ edge_streams
       (events (text_to_speech Examples.bad_voice Examples.refused_url
                  "stay calm" initial_state))
     = []
  /\ value (_edge_tts Examples.refused_url "stay calm" initial_state)
     = Returns (Some [x49; x44; x33]%byte).
Proof. repeat split; reflexivity. Qed.

(** When ElevenLabs is not tried or answers with an error, and the stream of
    Edge-TTS carries no audio data, [text_to_speech] returns [None]. *)
Lemma text_to_speech_absent cfg w text st :
  (tries_primary cfg (Synthesize text) st = false
   \/ match http_post w (_elevenlabs_tts_request cfg text) with
      | PostResponse r => is_success r = false
      | PostRequestError => True
      | PostClientError _ => False
      end) ->
  audio_data (yielded (edge_stream w text EDGE_TTS_VOICE)) = [] ->
  value (text_to_speech cfg w text st) = Returns None.
Proof.
  intros Hprimary Hsilent.
  assert (Hnone : value (_elevenlabs_tts cfg w text st) = Returns None
                  \/ tries_primary cfg (Synthesize text) st = false).
  { destruct Hprimary as [Hgate | Herr]; [now right | left].
    rewrite _elevenlabs_tts_value.
    destruct (http_post w (_elevenlabs_tts_request cfg text)) as [r | | e];
      [now rewrite Herr | reflexivity | contradiction]. }
  destruct (tries_primary cfg (Synthesize text) st) eqn:Hgate.
  - destruct Hnone as [Hnone | Hfalse]; [| discriminate].
    pose proof (text_to_speech_tried cfg w text st Hgate) as H.
    cbv zeta in H. rewrite Hnone in H. destruct H as [-> _].
    rewrite text_to_speech_edge_value. now apply _edge_tts_no_audio.
  - rewrite (text_to_speech_not_tried cfg w text st Hgate).
    rewrite text_to_speech_edge_value. now apply _edge_tts_no_audio.
Qed.

(** C6.  The code at the failing input: ElevenLabs answers 200 with an empty
    body and Edge-TTS yields no audio chunk.  Both providers have produced
    an empty result, and [text_to_speech] returns the empty bytes of
    ElevenLabs, not [None]; Edge-TTS, which would have turned its own empty
    result into [None], is not asked. *)
Theorem empty_primary_audio_is_returned :
  value (text_to_speech Examples.configured Examples.empty_audio "stay calm"
           initial_state)
  = Returns (Some [])
  /\ ~ In (EdgeStream "stay calm" EDGE_TTS_VOICE)
         (events (text_to_speech Examples.configured Examples.empty_audio
                    "stay calm" initial_state))
  /\ value (_edge_tts Examples.empty_audio "stay calm" initial_state)
     = Returns None.
Proof.
  repeat split; try reflexivity.
  vm_compute. intros [H | [H | []]]; discriminate H.
Qed.

(** ** Exceptions *)

(** C8.  The code at the failing input: an answer with status 200 whose body
    is not JSON.  [resp.json()] raises [json.JSONDecodeError], which neither
    [except] clause of the STT helpers catches, and the exception leaves
    [transcribe_audio]; the same happens in the Groq helper. *)
Theorem non_json_body_raises :
  value (transcribe_audio Examples.configured Examples.not_json [] "call.webm"
           initial_state)
  = Raises JSONDecodeError
  /\ value (transcribe_audio Examples.configured Examples.groq_not_json []
              "call.webm" initial_state)
     = Raises JSONDecodeError.
Proof. split; reflexivity. Qed.

(** * Further properties of the module *)

(** ** What the helpers return and raise *)

Section HelperResults.

Variable cfg : config.
Variable w : world.

(** The exceptions that leave an STT helper are those the client raises by
    itself and those of reading the body of a success response; the handlers
    catch the others. *)
Lemma _elevenlabs_stt_raises audio_bytes filename st e :
  value (_elevenlabs_stt cfg w audio_bytes filename st) = Raises e ->
  raised_by_call w (_elevenlabs_stt_request cfg audio_bytes filename) e.
Proof.
  unfold _elevenlabs_stt, raised_by_call.
  generalize (_elevenlabs_stt_request cfg audio_bytes filename) as req.
  intros req. run_m.
  destruct (http_post w req) as [r | | ce]; cbn [value final events app].
  - destruct (is_success r) eqn:Hok; cbn [value final events app].
    + repeat split_case; intros [= <-] || discriminate;
        right; exists r; (split; [reflexivity | split; [exact Hok |]]);
        try match goal with
            | H : Response.json_failure _ = _ |- _ => rewrite H
            end;
        cbn [exn_of_json_error];
        first [left; reflexivity | right; left; reflexivity
              | right; right; reflexivity].
    + now split_case.
  - discriminate.
  - destruct ce; cbn [exn_of_client_error value]; intros [= <-];
      left; eexists; split; reflexivity.
Qed.

Lemma _groq_whisper_stt_raises audio_bytes filename st e :
  value (_groq_whisper_stt cfg w audio_bytes filename st) = Raises e ->
  raised_by_call w (_groq_whisper_stt_request cfg audio_bytes filename) e.
Proof.
  unfold _groq_whisper_stt, raised_by_call.
  generalize (_groq_whisper_stt_request cfg audio_bytes filename) as req.
  intros req. run_m.
  destruct (http_post w req) as [r | | ce]; cbn [value final events app].
  - destruct (is_success r) eqn:Hok; cbn [value final events app].
    + repeat split_case; intros [= <-] || discriminate;
        right; exists r; (split; [reflexivity | split; [exact Hok |]]);
        try match goal with
            | H : Response.json_failure _ = _ |- _ => rewrite H
            end;
        cbn [exn_of_json_error];
        first [left; reflexivity | right; left; reflexivity
              | right; right; reflexivity].
    + discriminate.
  - discriminate.
  - destruct ce; cbn [exn_of_client_error value]; intros [= <-];
      left; eexists; split; reflexivity.
Qed.

(** What leaves a helper is not what its handlers catch. *)
Lemma raised_by_call_not_caught req e :
  raised_by_call w req e -> caught_by_handlers e = false.
Proof.
  intros [[ce [_ ->]] | [r [_ [_ [-> | [-> | ->]]]]]]; try reflexivity.
  - now destruct ce.
  - now destruct (Response.json_failure r).
Qed.

(** A transcript returned by an STT helper is true in an [if] and has a
    length. *)
Lemma _elevenlabs_stt_returns audio_bytes filename st t :
  value (_elevenlabs_stt cfg w audio_bytes filename st) = Returns (Some t) ->
  truthy t = true /\ py_len t <> None.
Proof.
  unfold _elevenlabs_stt.
  generalize (_elevenlabs_stt_request cfg audio_bytes filename) as req.
  intros req. run_m.
  repeat split_case; intros [= <-] || discriminate; split; congruence.
Qed.

Lemma _groq_whisper_stt_returns audio_bytes filename st t :
  value (_groq_whisper_stt cfg w audio_bytes filename st) = Returns (Some t) ->
  truthy t = true /\ py_len t <> None.
Proof.
  unfold _groq_whisper_stt.
  generalize (_groq_whisper_stt_request cfg audio_bytes filename) as req.
  intros req. run_m.
  repeat split_case; intros [= <-] || discriminate; split; congruence.
Qed.

Lemma _groq_whisper_stt_transcript audio_bytes filename st r fields s :
  http_post w (_groq_whisper_stt_request cfg audio_bytes filename)
  = PostResponse r ->
  is_success r = true ->
  Response.json_body r = Some (JObj fields) ->
  dict_get fields "text" = Some (JStr s) ->
  s <> "" ->
  _groq_whisper_stt cfg w audio_bytes filename st
  = {| value := Returns (Some (JStr s));
       final := st;
       events :=
         [HttpPost GroqSTT (_groq_whisper_stt_request cfg audio_bytes filename);
          Log INFO "Groq Whisper STT successful (%d chars)."] |}.
Proof.
  intros Hpost Hok Hjson Htext Hs.
  unfold _groq_whisper_stt. run_m. rewrite Hpost. cbn [value final events app].
  rewrite Hok. cbn [value final events app].
  rewrite Hjson. cbn [value final events app].
  unfold dict_get_default. rewrite Htext. cbn [truthy py_len].
  destruct (String.eqb_spec s "") as [-> | _]; [congruence | reflexivity].
Qed.

(** A success response without a usable ["text"]: the helper returns [None]
    and leaves the global as it was. *)
Lemma _elevenlabs_stt_empty audio_bytes filename st r fields :
  http_post w (_elevenlabs_stt_request cfg audio_bytes filename)
  = PostResponse r ->
  is_success r = true ->
  Response.json_body r = Some (JObj fields) ->
  truthy (dict_get_default fields "text" (JStr "")) = false ->
  value (_elevenlabs_stt cfg w audio_bytes filename st) = Returns None
  /\ final (_elevenlabs_stt cfg w audio_bytes filename st) = st.
Proof.
  intros Hpost Hok Hjson Hempty.
  unfold _elevenlabs_stt. run_m. rewrite Hpost. cbn [value final events app].
  rewrite Hok. cbn [value final events app].
  rewrite Hjson. cbn [value final events app].
  rewrite Hempty. now split.
Qed.

(** The helpers do not log the records of the entry points. *)
Lemma _elevenlabs_stt_not_all_failed audio_bytes filename st :
  ~ In all_stt_failed (events (_elevenlabs_stt cfg w audio_bytes filename st)).
Proof.
  unfold _elevenlabs_stt, all_stt_failed.
  generalize (_elevenlabs_stt_request cfg audio_bytes filename) as req.
  intros req. run_m.
  repeat split_case; cbn [In]; intuition discriminate.
Qed.

Lemma _groq_whisper_stt_not_all_failed audio_bytes filename st :
  ~ In all_stt_failed (events (_groq_whisper_stt cfg w audio_bytes filename st)).
Proof.
  unfold _groq_whisper_stt, all_stt_failed.
  generalize (_groq_whisper_stt_request cfg audio_bytes filename) as req.
  intros req. run_m.
  repeat split_case; cbn [In]; intuition discriminate.
Qed.

Lemma _elevenlabs_tts_not_all_failed text st :
  ~ In all_tts_failed (events (_elevenlabs_tts cfg w text st)).
Proof.
  unfold _elevenlabs_tts, all_tts_failed.
  generalize (_elevenlabs_tts_request cfg text) as req.
  intros req. run_m.
  repeat split_case; cbn [In]; intuition discriminate.
Qed.

Lemma _elevenlabs_tts_no_stream text st :
  edge_streams (events (_elevenlabs_tts cfg w text st)) = [].
Proof.
  unfold _elevenlabs_tts.
  generalize (_elevenlabs_tts_request cfg text) as req.
  intros req. run_m. repeat split_case; reflexivity.
Qed.

(** When the loop returns, the stream has ended normally and every audio
    chunk carried data. *)
Lemma stream_loop_returns_complete chunks raises buffer st audio :
  value (stream_loop chunks raises buffer st) = Returns audio ->
  raises = false /\ audio_chunks_have_data chunks = true.
Proof.
  revert buffer.
  induction chunks as [| c chunks IH]; intros buffer;
    cbn [stream_loop audio_chunks_have_data forallb].
  - destruct raises; cbn; [discriminate | now split].
  - fold (audio_chunks_have_data chunks).
    destruct (String.eqb (chunk_type c) "audio"); [| apply IH].
    destruct (chunk_data c) as [data |]; [apply IH | discriminate].
Qed.

(** The loop reads the audio chunks only. *)
Lemma stream_loop_filter chunks raises buffer st :
  stream_loop chunks raises buffer st
  = stream_loop (filter is_audio chunks) raises buffer st.
Proof.
  revert buffer.
  induction chunks as [| c chunks IH]; intros buffer; [reflexivity |].
  cbn [filter]. unfold is_audio at 1.
  destruct (String.eqb (chunk_type c) "audio") eqn:Htype;
    cbn [stream_loop]; rewrite Htype; [| apply IH].
  destruct (chunk_data c); [apply IH | reflexivity].
Qed.

Lemma _edge_tts_some text st audio :
  value (_edge_tts w text st) = Returns (Some audio) ->
  stream_raises (edge_stream w text EDGE_TTS_VOICE) = false
  /\ audio_chunks_have_data (yielded (edge_stream w text EDGE_TTS_VOICE))
     = true
  /\ audio = audio_data (yielded (edge_stream w text EDGE_TTS_VOICE))
  /\ audio <> [].
Proof.
  unfold _edge_tts. run_m.
  set (s := edge_stream w text EDGE_TTS_VOICE).
  pose proof (stream_loop_returns_complete (yielded s) (stream_raises s) []
                st) as Hc.
  pose proof (stream_loop_returns (yielded s) (stream_raises s) [] st) as Hr.
  destruct (stream_loop (yielded s) (stream_raises s) [] st)
    as [[out | e] st' tr]; cbn [value final events app] in *;
    [| discriminate].
  destruct out as [| b out]; cbn [value]; [discriminate |].
  intros [= <-].
  destruct (Hc _ eq_refl) as [Hend Hdata].
  repeat split; [exact Hend | exact Hdata | exact (Hr _ eq_refl) | easy].
Qed.

Lemma _edge_tts_one_stream text st :
  edge_streams (events (_edge_tts w text st)) = [(text, EDGE_TTS_VOICE)].
Proof.
  unfold _edge_tts. run_m.
  set (s := edge_stream w text EDGE_TTS_VOICE).
  pose proof (stream_loop_events (yielded s) (stream_raises s) [] st) as He.
  destruct (stream_loop (yielded s) (stream_raises s) [] st)
    as [[audio | e] st' tr]; cbn [value final events app] in *; subst tr.
  - now destruct audio.
  - reflexivity.
Qed.

End HelperResults.

(** ** Requests of one call *)

Section Requests.

Variable cfg : config.
Variable w : world.

Lemma transcribe_audio_http_calls audio_bytes filename st :
  exists groq_called : bool,
    http_calls (events (transcribe_audio cfg w audio_bytes filename st))
    = ((if tries_primary cfg (Transcribe audio_bytes filename) st
        then [(ElevenLabsSTT, _elevenlabs_stt_request cfg audio_bytes filename)]
        else [])
       ++ (if groq_called
           then [(GroqSTT, _groq_whisper_stt_request cfg audio_bytes filename)]
           else []))%list
    /\ (groq_called = true -> is_set (GROQ_API_KEY cfg) = true).
Proof.
  destruct (tries_primary cfg (Transcribe audio_bytes filename) st) eqn:Hgate.
  - pose proof (transcribe_audio_tried cfg w audio_bytes filename st Hgate)
      as H. cbv zeta in H.
    destruct (value (_elevenlabs_stt cfg w audio_bytes filename st))
      as [[t |] | e]; destruct H as [_ [_ ->]].
    + exists false. now rewrite _elevenlabs_stt_http_calls.
    + exists (is_set (GROQ_API_KEY cfg)).
      now rewrite http_calls_app, _elevenlabs_stt_http_calls,
        transcribe_audio_groq_http_calls.
    + exists false. now rewrite _elevenlabs_stt_http_calls.
  - rewrite (transcribe_audio_not_tried cfg w _ _ _ Hgate).
    exists (is_set (GROQ_API_KEY cfg)).
    now rewrite transcribe_audio_groq_http_calls.
Qed.

Lemma text_to_speech_http_calls text st :
  http_calls (events (text_to_speech cfg w text st))
  = if tries_primary cfg (Synthesize text) st
    then [(ElevenLabsTTS, _elevenlabs_tts_request cfg text)] else [].
Proof.
  assert (Hedge : forall st',
             http_calls (events (text_to_speech_edge w text st')) = []).
  { intros st'.
    destruct (text_to_speech_edge_events w text st') as [logs [-> Hl]].
    exact Hl. }
  destruct (tries_primary cfg (Synthesize text) st) eqn:Hgate.
  - pose proof (text_to_speech_tried cfg w text st Hgate) as H.
    cbv zeta in H.
    destruct (value (_elevenlabs_tts cfg w text st))
      as [[a |] | e]; destruct H as [_ [_ ->]];
      rewrite ?http_calls_app, ?Hedge, _elevenlabs_tts_http_calls;
      reflexivity.
  - rewrite (text_to_speech_not_tried cfg w _ _ Hgate). apply Hedge.
Qed.

Lemma edge_streams_app (tr1 tr2 : trace) :
  edge_streams (tr1 ++ tr2)%list
  = (edge_streams tr1 ++ edge_streams tr2)%list.
Proof. apply flat_map_app. Qed.

Lemma text_to_speech_edge_one_stream text st :
  edge_streams (events (text_to_speech_edge w text st))
  = [(text, EDGE_TTS_VOICE)].
Proof.
  unfold text_to_speech_edge. run_m.
  pose proof (_edge_tts_one_stream w text st) as Hs.
  destruct (_edge_tts w text st) as [[[a |] | e] st' tr];
    cbn [value final events] in *;
    rewrite ?edge_streams_app, Hs; reflexivity.
Qed.

Lemma text_to_speech_edge_streams text st :
  edge_streams (events (text_to_speech cfg w text st))
  = if tries_primary cfg (Synthesize text) st
       && (succeeds (http_post w (_elevenlabs_tts_request cfg text))
           || client_fails (http_post w (_elevenlabs_tts_request cfg text)))
    then [] else [(text, EDGE_TTS_VOICE)].
Proof.
  destruct (tries_primary cfg (Synthesize text) st) eqn:Hgate; cbn [andb].
  - pose proof (text_to_speech_tried cfg w text st Hgate) as H.
    cbv zeta in H. rewrite _elevenlabs_tts_value in H.
    unfold succeeds, client_fails.
    destruct (http_post w (_elevenlabs_tts_request cfg text)) as [r | | ce].
    + destruct (is_success r); destruct H as [_ [_ ->]];
        rewrite ?edge_streams_app, ?text_to_speech_edge_one_stream,
          _elevenlabs_tts_no_stream; reflexivity.
    + destruct H as [_ [_ ->]].
      now rewrite edge_streams_app, text_to_speech_edge_one_stream,
        _elevenlabs_tts_no_stream.
    + destruct H as [_ [_ ->]]. apply _elevenlabs_tts_no_stream.
  - now rewrite (text_to_speech_not_tried cfg w _ _ Hgate),
      text_to_speech_edge_one_stream.
Qed.

End Requests.


(** X2.  An exception that leaves [transcribe_audio] comes from one call of
    [client.post] that the call made: it is an error the client raised by
    itself, or it was raised while reading the body of a success response
    (the failure of [resp.json()], [AttributeError], [TypeError]).  It is
    never an [httpx.HTTPStatusError] or an [httpx.RequestError]: error
    statuses and transport errors do not reach the caller. *)
Theorem transcribe_audio_exceptions :
  forall (cfg : config) (w : world) (audio_bytes : bytes) (filename : string)
         (st : state) (e : exn),
    value (transcribe_audio cfg w audio_bytes filename st) = Raises e ->
    caught_by_handlers e = false
    /\ exists p req,
         In (p, req)
           (http_calls (events (transcribe_audio cfg w audio_bytes filename st)))
         /\ raised_by_call w req e.
Proof.
  intros cfg w audio_bytes filename st e.
  assert (Hgroq : forall st',
             value (transcribe_audio_groq cfg w audio_bytes filename st')
             = Raises e ->
             exists p req,
               In (p, req)
                 (http_calls
                    (events (transcribe_audio_groq cfg w audio_bytes filename
                               st')))
               /\ raised_by_call w req e).
  { intros st'.
    rewrite transcribe_audio_groq_value, transcribe_audio_groq_http_calls.
    destruct (is_set (GROQ_API_KEY cfg)); [| discriminate].
    intros Hr.
    exists GroqSTT, (_groq_whisper_stt_request cfg audio_bytes filename).
    split; [now left | exact (_groq_whisper_stt_raises cfg w _ _ _ _ Hr)]. }
  assert (Hcall : value (transcribe_audio cfg w audio_bytes filename st)
                  = Raises e ->
                  exists p req,
                    In (p, req)
                      (http_calls
                         (events (transcribe_audio cfg w audio_bytes filename
                                    st)))
                    /\ raised_by_call w req e).
  { destruct (tries_primary cfg (Transcribe audio_bytes filename) st)
      eqn:Hgate.
    - pose proof (transcribe_audio_tried cfg w audio_bytes filename st Hgate)
        as H. cbv zeta in H.
      pose proof (_elevenlabs_stt_raises cfg w audio_bytes filename st) as Hp.
      destruct (value (_elevenlabs_stt cfg w audio_bytes filename st))
        as [[t |] | e'].
      + destruct H as [-> _]. discriminate.
      + destruct H as [-> [_ ->]]. intros Hr.
        destruct (Hgroq _ Hr) as [p [req [Hin Hrest]]].
        exists p, req. split; [| exact Hrest].
        rewrite http_calls_app. apply in_or_app. now right.
      + destruct H as [-> [_ ->]]. intros [= <-].
        exists ElevenLabsSTT,
          (_elevenlabs_stt_request cfg audio_bytes filename).
        rewrite _elevenlabs_stt_http_calls.
        split; [now left | exact (Hp e' eq_refl)].
    - rewrite (transcribe_audio_not_tried cfg w _ _ _ Hgate). apply Hgroq. }
  intros Hr. destruct (Hcall Hr) as [p [req [Hin Hraised]]].
  split; [exact (raised_by_call_not_caught w req e Hraised) |].
  now exists p, req.
Qed.

Lemma transcribe_audio_exceptions_witness :
  caught_by_handlers JSONDecodeError = false.
Proof.
  exact (proj1 (transcribe_audio_exceptions
                  Examples.configured Examples.not_json [] "call.webm"
                  initial_state JSONDecodeError eq_refl)).
Defined.

(** X3.  A transcript returned by [transcribe_audio] is never empty: it is
    true in an [if] and has a length. *)
Theorem transcribe_audio_transcript_not_empty :
  forall (cfg : config) (w : world) (audio_bytes : bytes) (filename : string)
         (st : state) (t : json),
    value (transcribe_audio cfg w audio_bytes filename st) = Returns (Some t) ->
    truthy t = true /\ py_len t <> None /\ t <> JStr "".
Proof.
  intros cfg w audio_bytes filename st t.
  assert (Hgroq : forall st',
             value (transcribe_audio_groq cfg w audio_bytes filename st')
             = Returns (Some t) ->
             truthy t = true /\ py_len t <> None).
  { intros st'. rewrite transcribe_audio_groq_value.
    destruct (is_set (GROQ_API_KEY cfg)); [| discriminate].
    apply _groq_whisper_stt_returns. }
  assert (Hboth : value (transcribe_audio cfg w audio_bytes filename st)
                  = Returns (Some t) ->
                  truthy t = true /\ py_len t <> None).
  { destruct (tries_primary cfg (Transcribe audio_bytes filename) st)
      eqn:Hgate.
    - pose proof (transcribe_audio_tried cfg w audio_bytes filename st Hgate)
        as H. cbv zeta in H.
      pose proof (_elevenlabs_stt_returns cfg w audio_bytes filename st) as Hp.
      destruct (value (_elevenlabs_stt cfg w audio_bytes filename st))
        as [[t' |] | e'].
      + destruct H as [-> _]. intros [= <-]. now apply Hp.
      + destruct H as [-> _]. apply Hgroq.
      + destruct H as [-> _]. discriminate.
    - rewrite (transcribe_audio_not_tried cfg w _ _ _ Hgate). apply Hgroq. }
  intros Hr. destruct (Hboth Hr) as [Ht Hl].
  repeat split; [exact Ht | exact Hl |].
  intros ->. discriminate Ht.
Qed.

Lemma transcribe_audio_transcript_not_empty_witness :
  truthy (JStr "help me") = true
  /\ py_len (JStr "help me") <> None
  /\ JStr "help me" <> JStr "".
Proof.
  exact (transcribe_audio_transcript_not_empty
           Examples.configured Examples.all_up [] "call.webm" initial_state
           (JStr "help me") eq_refl).
Defined.

(** X4.  Each provider gets at most one attempt per call, in the order of
    the chain.  [transcribe_audio] calls [client.post] for ElevenLabs once
    exactly when the key is set and the flag is unset, then for Groq once
    exactly when Groq's key is set and ElevenLabs was not tried or returned
    [None].  [text_to_speech] calls [client.post] for ElevenLabs once
    exactly when key and voice are set and the flag is unset, and starts
    one Edge-TTS synthesis unless that call was answered with a success
    response or the client raised an error of its own. *)
Theorem one_attempt_per_provider :
  forall (cfg : config) (w : world) (c : call) (st : state),
    match c with
    | Transcribe audio_bytes filename =>
        http_calls (events (transcribe_audio cfg w audio_bytes filename st))
        = ((if tries_primary cfg c st
            then [(ElevenLabsSTT,
                   _elevenlabs_stt_request cfg audio_bytes filename)]
            else [])
           ++ (if is_set (GROQ_API_KEY cfg)
                  && (negb (tries_primary cfg c st)
                      || gave_nothing
                           (value (_elevenlabs_stt cfg w audio_bytes filename
                                     st)))
               then [(GroqSTT,
                      _groq_whisper_stt_request cfg audio_bytes filename)]
               else []))%list
    | Synthesize text =>
        http_calls (events (text_to_speech cfg w text st))
        = (if tries_primary cfg c st
           then [(ElevenLabsTTS, _elevenlabs_tts_request cfg text)] else [])
        /\ edge_streams (events (text_to_speech cfg w text st))
           = (if tries_primary cfg c st
                 && (succeeds (http_post w (_elevenlabs_tts_request cfg text))
                     || client_fails
                          (http_post w (_elevenlabs_tts_request cfg text)))
              then [] else [(text, EDGE_TTS_VOICE)])
    end.
Proof.
  intros cfg w [audio_bytes filename | text] st.
  - destruct (tries_primary cfg (Transcribe audio_bytes filename) st)
      eqn:Hgate; cbn [negb orb].
    + pose proof (transcribe_audio_tried cfg w audio_bytes filename st Hgate)
        as H. cbv zeta in H.
      destruct (value (_elevenlabs_stt cfg w audio_bytes filename st))
        as [[t |] | e]; destruct H as [_ [_ ->]]; cbn [gave_nothing];
        rewrite ?http_calls_app, ?transcribe_audio_groq_http_calls,
          _elevenlabs_stt_http_calls, ?andb_false_r, ?andb_true_r;
        reflexivity.
    + rewrite (transcribe_audio_not_tried cfg w _ _ _ Hgate).
      now rewrite transcribe_audio_groq_http_calls, andb_true_r.
  - split.
    + apply text_to_speech_http_calls.
    + apply text_to_speech_edge_streams.
Qed.

(** X5.  No request leaves without its credential, and each carries the
    caller's input unchanged.  A request sent to ElevenLabs by a call has the
    configured key, which is set, under [xi-api-key]; one sent to Groq has
    Groq's key, which is set, as bearer token.  An STT request uploads the
    audio bytes under the filename given; the TTS request, sent only with a
    voice set, asks for the text given. *)
Theorem requests_carry_credentials_and_input :
  forall (cfg : config) (w : world) (c : call) (st : state) (p : provider)
         (req : request),
    In (p, req) (http_calls (events (serve cfg w c st))) ->
    match p with
    | ElevenLabsSTT =>
        is_set (ELEVENLABS_API_KEY cfg) = true
        /\ headers req = [("xi-api-key", ELEVENLABS_API_KEY cfg)]
        /\ exists audio_bytes filename,
             c = Transcribe audio_bytes filename
             /\ sent_file req = Some (filename, audio_bytes)
    | GroqSTT =>
        is_set (GROQ_API_KEY cfg) = true
        /\ headers req
           = [("Authorization",
               Some ("Bearer " ++ format_setting (GROQ_API_KEY cfg)))]
        /\ exists audio_bytes filename,
             c = Transcribe audio_bytes filename
             /\ sent_file req = Some (filename, audio_bytes)
    | ElevenLabsTTS =>
        is_set (ELEVENLABS_API_KEY cfg) = true
        /\ is_set (ELEVENLABS_VOICE_ID cfg) = true
        /\ dict_get (headers req) "xi-api-key" = Some (ELEVENLABS_API_KEY cfg)
        /\ exists text,
             c = Synthesize text /\ sent_text req = Some (JStr text)
    end.
Proof.
  intros cfg w c st p req. rewrite serve_events.
  destruct c as [audio_bytes filename | text].
  - destruct (transcribe_audio_http_calls cfg w audio_bytes filename st)
      as [groq_called [-> Hgroq]].
    intros Hin. apply in_app_or in Hin as [Hin | Hin].
    + destruct (tries_primary cfg (Transcribe audio_bytes filename) st)
        eqn:Hgate; [| contradiction].
      destruct Hin as [[= <- <-] | []].
      cbn [tries_primary] in Hgate.
      apply andb_true_iff in Hgate as [Hkey _].
      repeat split; [exact Hkey |].
      now exists audio_bytes, filename.
    + destruct groq_called; [| contradiction].
      destruct Hin as [[= <- <-] | []].
      repeat split; [now apply Hgroq |].
      now exists audio_bytes, filename.
  - rewrite text_to_speech_http_calls.
    destruct (tries_primary cfg (Synthesize text) st) eqn:Hgate;
      [| contradiction].
    intros [[= <- <-] | []].
    cbn [tries_primary] in Hgate.
    apply andb_true_iff in Hgate as [Hgate Hvoice].
    apply andb_true_iff in Hgate as [_ Hkey].
    repeat split; [exact Hkey | exact Hvoice |].
    now exists text.
Qed.

Lemma requests_carry_credentials_and_input_witness :
  is_set (GROQ_API_KEY Examples.configured) = true
  /\ headers (_groq_whisper_stt_request Examples.configured [] "call.webm")
     = [("Authorization", Some "Bearer gsk-key")].
Proof.
  pose proof (requests_carry_credentials_and_input
                Examples.configured Examples.server_error
                (Transcribe [] "call.webm") initial_state GroqSTT
                (_groq_whisper_stt_request Examples.configured [] "call.webm")
                (or_intror (or_introl eq_refl))) as [Hkey [Hheaders _]].
  split; [exact Hkey | exact Hheaders].
Defined.

(** ** The flag across calls and chains *)

Lemma tries_primary_unset (cfg : config) (c : call) (st : state) :
  is_set (ELEVENLABS_API_KEY cfg) = false -> tries_primary cfg c st = false.
Proof.
  intros Hkey. destruct c; cbn [tries_primary]; rewrite Hkey;
    [reflexivity | now rewrite andb_false_r].
Qed.

Lemma serve_not_tried (cfg : config) (w : world) (c : call) (st : state) :
  tries_primary cfg c st = false -> final (serve cfg w c st) = st.
Proof.
  intros Hgate.
  rewrite (state_eta (final (serve cfg w c st))), serve_flag, Hgate.
  cbn [andb]. now rewrite orb_false_r, <- state_eta.
Qed.

(** X6.  Without an ElevenLabs key nothing ever sets the flag: after any
    sequence of calls the global is what it was, and no call sends a request
    to ElevenLabs. *)
Theorem unconfigured_primary_never_blocks :
  forall (cfg : config) (calls : list (world * call)) (st : state)
         (w : world) (c : call),
    is_set (ELEVENLABS_API_KEY cfg) = false ->
    after cfg calls st = st
    /\ primary_calls (events (serve cfg w c (after cfg calls st))) = [].
Proof.
  intros cfg calls st w c Hkey.
  assert (Hafter : after cfg calls st = st).
  { revert st. induction calls as [| [w' c'] calls IH]; intros st;
      cbn [after]; [reflexivity |].
    rewrite (serve_not_tried cfg w' c' st (tries_primary_unset cfg c' st Hkey)).
    apply IH. }
  split; [exact Hafter |].
  now rewrite serve_primary_calls, tries_primary_unset.
Qed.

Lemma unconfigured_primary_never_blocks_witness :
  after Examples.unconfigured
    [(Examples.unauthorized, Transcribe [] "call.webm");
     (Examples.unauthorized, Synthesize "stay calm")] initial_state
  = initial_state.
Proof.
  exact (proj1 (unconfigured_primary_never_blocks
                  Examples.unconfigured
                  [(Examples.unauthorized, Transcribe [] "call.webm");
                   (Examples.unauthorized, Synthesize "stay calm")]
                  initial_state Examples.all_up (Synthesize "stay calm")
                  eq_refl)).
Defined.

(** X7.  The flag set by the TTS chain closes the STT chain too.  When
    [text_to_speech] sends its request to ElevenLabs and the answer is an
    error response that is a 401 or carries the marker, the flag is set and
    the call returns what Edge-TTS gives; from then on, after any calls in
    between, [transcribe_audio] is its Groq step alone and [text_to_speech]
    its Edge-TTS step alone. *)
Theorem tts_block_closes_both_chains :
  forall (cfg : config) (w : world) (text : string) (st : state),
    tries_primary cfg (Synthesize text) st = true ->
    blocks (http_post w (_elevenlabs_tts_request cfg text)) = true ->
    (final (text_to_speech cfg w text st) = blocked_state
     /\ value (text_to_speech cfg w text st) = value (_edge_tts w text st)
     /\ edge_streams (events (text_to_speech cfg w text st))
        = [(text, EDGE_TTS_VOICE)])
    /\ (forall (calls : list (world * call)) (w' : world)
               (audio_bytes : bytes) (filename : string),
          transcribe_audio cfg w' audio_bytes filename
            (after cfg calls (final (text_to_speech cfg w text st)))
          = transcribe_audio_groq cfg w' audio_bytes filename
              (after cfg calls (final (text_to_speech cfg w text st))))
    /\ (forall (calls : list (world * call)) (w' : world) (text' : string),
          text_to_speech cfg w' text'
            (after cfg calls (final (text_to_speech cfg w text st)))
          = text_to_speech_edge w' text'
              (after cfg calls (final (text_to_speech cfg w text st)))).
Proof.
  intros cfg w text st Hgate Hblocks.
  assert (Herr : succeeds (http_post w (_elevenlabs_tts_request cfg text))
                 = false
                 /\ client_fails
                      (http_post w (_elevenlabs_tts_request cfg text))
                    = false).
  { unfold blocks in Hblocks. unfold succeeds, client_fails.
    destruct (http_post w (_elevenlabs_tts_request cfg text)) as [r | | ce];
      [| now split | discriminate Hblocks].
    now destruct (is_success r). }
  destruct Herr as [Herr Hclient].
  assert (Hnone : value (_elevenlabs_tts cfg w text st) = Returns None).
  { rewrite _elevenlabs_tts_value. unfold succeeds, client_fails in *.
    destruct (http_post w (_elevenlabs_tts_request cfg text)) as [r | | ce];
      [now rewrite Herr | reflexivity | discriminate Hclient]. }
  pose proof (text_to_speech_tried cfg w text st Hgate) as H.
  cbv zeta in H. rewrite Hnone in H. destruct H as [Hv [Hf _]].
  assert (Hfinal : final (text_to_speech cfg w text st) = blocked_state).
  { rewrite (state_eta (final _)), Hf, _elevenlabs_tts_flag, Hblocks.
    now rewrite orb_true_r. }
  assert (Hlater : forall calls c,
             tries_primary cfg c
               (after cfg calls (final (text_to_speech cfg w text st)))
             = false).
  { intros calls c. apply tries_primary_blocked, after_blocked.
    now rewrite Hfinal. }
  split; [split; [| split] | split].
  - exact Hfinal.
  - rewrite Hv, text_to_speech_edge_value.
    apply _edge_tts_value_any_state.
  - now rewrite text_to_speech_edge_streams, Hgate, Herr, Hclient.
  - intros calls w' audio_bytes filename.
    apply transcribe_audio_not_tried, Hlater.
  - intros calls w' text'. apply text_to_speech_not_tried, Hlater.
Qed.

Lemma tts_block_closes_both_chains_witness :
  final (text_to_speech Examples.configured Examples.unauthorized "stay calm"
           initial_state)
  = blocked_state
  /\ value (text_to_speech Examples.configured Examples.unauthorized
              "stay calm" initial_state)
     = value (_edge_tts Examples.unauthorized "stay calm" initial_state).
Proof.
  pose proof (tts_block_closes_both_chains
                Examples.configured Examples.unauthorized "stay calm"
                initial_state eq_refl eq_refl) as [[Hfinal [Hvalue _]] _].
  split; [exact Hfinal | exact Hvalue].
Defined.

(** ** Success and emptiness in the chains *)

(** X8.  When [text_to_speech] sends its request to ElevenLabs and the
    answer is a success response, the call returns the body as it is, leaves
    the global unchanged, and does nothing else: one request, one log
    record, no Edge-TTS synthesis. *)
Theorem primary_audio_is_returned :
  forall (cfg : config) (w : world) (text : string) (st : state)
         (r : response),
    tries_primary cfg (Synthesize text) st = true ->
    http_post w (_elevenlabs_tts_request cfg text) = PostResponse r ->
    is_success r = true ->
    text_to_speech cfg w text st
    = {| value := Returns (Some (Response.content r));
         final := st;
         events :=
           [HttpPost ElevenLabsTTS (_elevenlabs_tts_request cfg text);
            Log INFO "ElevenLabs TTS successful (%d bytes)."] |}.
Proof.
  intros cfg w text st r Hgate Hpost Hok.
  cbn [tries_primary] in Hgate.
  unfold text_to_speech, _elevenlabs_tts. run_m.
  rewrite Hgate, Hpost. cbn [value final events app].
  rewrite Hok. reflexivity.
Qed.

Lemma primary_audio_is_returned_witness :
  value (text_to_speech Examples.configured Examples.not_json "stay calm"
           initial_state)
  = Returns (Some (list_byte_of_string "<html>Service</html>")).
Proof.
  exact (f_equal value
           (primary_audio_is_returned
              Examples.configured Examples.not_json "stay calm" initial_state
              (Examples.answer 200 "<html>Service</html>" None)
              eq_refl eq_refl eq_refl)).
Defined.

Lemma _edge_tts_not_all_failed (w : world) (text : string) (st : state) :
  ~ In all_tts_failed (events (_edge_tts w text st)).
Proof.
  unfold _edge_tts, all_tts_failed. run_m.
  set (s := edge_stream w text EDGE_TTS_VOICE).
  pose proof (stream_loop_events (yielded s) (stream_raises s) [] st) as He.
  destruct (stream_loop (yielded s) (stream_raises s) [] st)
    as [[audio | e] st' tr]; cbn [value final events app] in *; subst tr.
  - destruct audio; cbn [value final events app In]; intros Hin;
      repeat destruct Hin as [Hin | Hin]; (discriminate Hin || exact Hin).
  - cbn [In]. intros Hin.
    repeat destruct Hin as [Hin | Hin]; (discriminate Hin || exact Hin).
Qed.

(** The Groq step logs its record exactly when it returns [None]. *)
Lemma transcribe_audio_groq_log cfg w audio_bytes filename st :
  value (transcribe_audio_groq cfg w audio_bytes filename st) = Returns None
  <-> In all_stt_failed
        (events (transcribe_audio_groq cfg w audio_bytes filename st)).
Proof.
  unfold transcribe_audio_groq. run_m.
  destruct (is_set (GROQ_API_KEY cfg)).
  - pose proof (_groq_whisper_stt_not_all_failed cfg w audio_bytes filename st)
      as Hnot.
    destruct (_groq_whisper_stt cfg w audio_bytes filename st)
      as [[[t |] | e] st' tr]; cbn [value final events app] in *.
    + rewrite app_nil_r. split; [discriminate | contradiction].
    + split; [intros _ | reflexivity].
      apply in_or_app. right. now left.
    + split; [discriminate | contradiction].
  - split; [intros _; now left | reflexivity].
Qed.

(** The Edge-TTS step logs its record exactly when it returns [None]. *)
Lemma text_to_speech_edge_log w text st :
  value (text_to_speech_edge w text st) = Returns None
  <-> In all_tts_failed (events (text_to_speech_edge w text st)).
Proof.
  unfold text_to_speech_edge. run_m.
  pose proof (_edge_tts_not_all_failed w text st) as Hnot.
  destruct (_edge_tts w text st) as [[[a |] | e] st' tr];
    cbn [value final events app] in *.
  - rewrite app_nil_r. split; [discriminate | contradiction].
  - split; [intros _ | reflexivity].
    apply in_or_app. right. now left.
  - split; [discriminate | contradiction].
Qed.

Lemma transcribe_audio_groq_transcript cfg w audio_bytes filename st r fields
    s :
  is_set (GROQ_API_KEY cfg) = true ->
  http_post w (_groq_whisper_stt_request cfg audio_bytes filename)
  = PostResponse r ->
  is_success r = true ->
  Response.json_body r = Some (JObj fields) ->
  dict_get fields "text" = Some (JStr s) ->
  s <> "" ->
  value (transcribe_audio_groq cfg w audio_bytes filename st)
  = Returns (Some (JStr s)).
Proof.
  intros Hkey Hpost Hok Hjson Htext Hs.
  rewrite transcribe_audio_groq_value, Hkey.
  now rewrite (_groq_whisper_stt_transcript cfg w audio_bytes filename st r
                 fields s Hpost Hok Hjson Htext Hs).
Qed.

(** X9.  When ElevenLabs is not tried or returns [None], and Groq is
    configured and answers with a non-empty transcript, [transcribe_audio]
    returns that transcript and does not log that all providers failed. *)
Theorem groq_transcript_is_returned :
  forall (cfg : config) (w : world) (audio_bytes : bytes) (filename : string)
         (st : state) (r : response) (fields : list (string * json))
         (s : string),
    (tries_primary cfg (Transcribe audio_bytes filename) st = false
     \/ value (_elevenlabs_stt cfg w audio_bytes filename st) = Returns None) ->
    is_set (GROQ_API_KEY cfg) = true ->
    http_post w (_groq_whisper_stt_request cfg audio_bytes filename)
    = PostResponse r ->
    is_success r = true ->
    Response.json_body r = Some (JObj fields) ->
    dict_get fields "text" = Some (JStr s) ->
    s <> "" ->
    value (transcribe_audio cfg w audio_bytes filename st)
    = Returns (Some (JStr s))
    /\ ~ In all_stt_failed
           (events (transcribe_audio cfg w audio_bytes filename st)).
Proof.
  intros cfg w audio_bytes filename st r fields s Hprimary Hkey Hpost Hok
    Hjson Htext Hs.
  assert (Hgroq : forall st',
             value (transcribe_audio_groq cfg w audio_bytes filename st')
             = Returns (Some (JStr s))
             /\ ~ In all_stt_failed
                    (events (transcribe_audio_groq cfg w audio_bytes filename
                               st'))).
  { intros st'.
    pose proof (transcribe_audio_groq_transcript cfg w audio_bytes filename
                  st' r fields s Hkey Hpost Hok Hjson Htext Hs) as Hv.
    split; [exact Hv |].
    rewrite <- transcribe_audio_groq_log, Hv. discriminate. }
  destruct (tries_primary cfg (Transcribe audio_bytes filename) st) eqn:Hgate.
  - destruct Hprimary as [Hfalse | Hnone]; [discriminate |].
    pose proof (transcribe_audio_tried cfg w audio_bytes filename st Hgate)
      as H. cbv zeta in H. rewrite Hnone in H.
    destruct H as [-> [_ ->]].
    destruct (Hgroq (final (_elevenlabs_stt cfg w audio_bytes filename st)))
      as [Hv Hlog].
    split; [exact Hv |].
    intros Hin. apply in_app_or in Hin as [Hin | Hin].
    + exact (_elevenlabs_stt_not_all_failed cfg w _ _ _ Hin).
    + exact (Hlog Hin).
  - rewrite (transcribe_audio_not_tried cfg w _ _ _ Hgate). apply Hgroq.
Qed.

Lemma groq_transcript_is_returned_witness :
  value (transcribe_audio Examples.configured Examples.all_up [] "call.webm"
           blocked_state)
  = Returns (Some (JStr "other")).
Proof.
  exact (proj1 (groq_transcript_is_returned
                  Examples.configured Examples.all_up [] "call.webm"
                  blocked_state (Examples.transcript_answer "other")
                  [("text", JStr "other")] "other"
                  (or_introl eq_refl) eq_refl eq_refl eq_refl eq_refl eq_refl
                  ltac:(discriminate))).
Defined.

(** X10.  An empty result of ElevenLabs is a failure of the attempt and
    nothing more.  When the answer is a success response whose JSON object
    has no ["text"], or one that is false in an [if] (empty string, [null],
    zero, empty list), the global is left as it was and [transcribe_audio]
    goes on with the Groq step, calling Groq when it is configured. *)
Theorem empty_transcript_falls_through :
  forall (cfg : config) (w : world) (audio_bytes : bytes) (filename : string)
         (st : state) (r : response) (fields : list (string * json)),
    tries_primary cfg (Transcribe audio_bytes filename) st = true ->
    http_post w (_elevenlabs_stt_request cfg audio_bytes filename)
    = PostResponse r ->
    is_success r = true ->
    Response.json_body r = Some (JObj fields) ->
    (dict_get fields "text" = None
     \/ exists t, dict_get fields "text" = Some t /\ truthy t = false) ->
    final (transcribe_audio cfg w audio_bytes filename st) = st
    /\ value (transcribe_audio cfg w audio_bytes filename st)
       = value (transcribe_audio_groq cfg w audio_bytes filename st)
    /\ http_calls (events (transcribe_audio cfg w audio_bytes filename st))
       = (ElevenLabsSTT, _elevenlabs_stt_request cfg audio_bytes filename)
         :: (if is_set (GROQ_API_KEY cfg)
             then [(GroqSTT,
                    _groq_whisper_stt_request cfg audio_bytes filename)]
             else []).
Proof.
  intros cfg w audio_bytes filename st r fields Hgate Hpost Hok Hjson Hempty.
  assert (Hfalse : truthy (dict_get_default fields "text" (JStr "")) = false).
  { unfold dict_get_default.
    destruct Hempty as [-> | [t [-> Ht]]]; [reflexivity | exact Ht]. }
  destruct (_elevenlabs_stt_empty cfg w audio_bytes filename st r fields
              Hpost Hok Hjson Hfalse) as [Hnone Hfinal].
  pose proof (transcribe_audio_tried cfg w audio_bytes filename st Hgate) as H.
  cbv zeta in H. rewrite Hnone, Hfinal in H.
  destruct H as [Hv [Hf He]].
  repeat split; [exact Hf | exact Hv |].
  now rewrite He, http_calls_app, _elevenlabs_stt_http_calls,
    transcribe_audio_groq_http_calls.
Qed.

Lemma empty_transcript_falls_through_witness :
  value (transcribe_audio Examples.configured
           (Examples.vendors
              (PostResponse (Examples.answer 200 "{}" (Some (JObj []))))
              (PostResponse (Examples.transcript_answer "other"))
              Examples.silent_stream)
           [] "call.webm" initial_state)
  = Returns (Some (JStr "other")).
Proof.
  pose proof (empty_transcript_falls_through
                Examples.configured
                (Examples.vendors
                   (PostResponse (Examples.answer 200 "{}" (Some (JObj []))))
                   (PostResponse (Examples.transcript_answer "other"))
                   Examples.silent_stream)
                [] "call.webm" initial_state
                (Examples.answer 200 "{}" (Some (JObj []))) []
                eq_refl eq_refl eq_refl eq_refl (or_introl eq_refl))
    as [_ [Hvalue _]].
  rewrite Hvalue. reflexivity.
Defined.

(** X11.  Each entry point logs its closing record exactly when it returns
    [None]: "All STT providers failed." at level ERROR for
    [transcribe_audio], the deferral to the browser at level WARNING for
    [text_to_speech].  A call that returns a result or raises logs
    neither. *)
Theorem none_is_logged :
  forall (cfg : config) (w : world) (c : call) (st : state),
    match c with
    | Transcribe audio_bytes filename =>
        value (transcribe_audio cfg w audio_bytes filename st) = Returns None
        <-> In all_stt_failed
              (events (transcribe_audio cfg w audio_bytes filename st))
    | Synthesize text =>
        value (text_to_speech cfg w text st) = Returns None
        <-> In all_tts_failed (events (text_to_speech cfg w text st))
    end.
Proof.
  intros cfg w [audio_bytes filename | text] st.
  - destruct (tries_primary cfg (Transcribe audio_bytes filename) st)
      eqn:Hgate.
    + pose proof (transcribe_audio_tried cfg w audio_bytes filename st Hgate)
        as H. cbv zeta in H.
      pose proof (_elevenlabs_stt_not_all_failed cfg w audio_bytes filename st)
        as Hnot.
      destruct (value (_elevenlabs_stt cfg w audio_bytes filename st))
        as [[t |] | e]; destruct H as [-> [_ ->]].
      * split; [discriminate | contradiction].
      * rewrite transcribe_audio_groq_log. split.
        -- intros Hin. apply in_or_app. now right.
        -- intros Hin. apply in_app_or in Hin as [Hin | Hin];
             [contradiction | exact Hin].
      * split; [discriminate | contradiction].
    + rewrite (transcribe_audio_not_tried cfg w _ _ _ Hgate).
      apply transcribe_audio_groq_log.
  - destruct (tries_primary cfg (Synthesize text) st) eqn:Hgate.
    + pose proof (text_to_speech_tried cfg w text st Hgate) as H.
      cbv zeta in H.
      pose proof (_elevenlabs_tts_not_all_failed cfg w text st) as Hnot.
      destruct (value (_elevenlabs_tts cfg w text st))
        as [[a |] | e]; destruct H as [-> [_ ->]].
      * split; [discriminate | contradiction].
      * rewrite text_to_speech_edge_log. split.
        -- intros Hin. apply in_or_app. now right.
        -- intros Hin. apply in_app_or in Hin as [Hin | Hin];
             [contradiction | exact Hin].
      * split; [discriminate | contradiction].
    + rewrite (text_to_speech_not_tried cfg w _ _ Hgate).
      apply text_to_speech_edge_log.
Qed.

(** ** The Edge-TTS stream *)

(** X12.  [_edge_tts] reads the audio chunks only: two streams that end the
    same way and have the same chunks tagged ["audio"], in the same order,
    give the same run, whatever other chunks (word or sentence boundaries)
    are interleaved. *)
Theorem edge_tts_reads_audio_chunks_only :
  forall (w1 w2 : world) (text : string) (st : state),
    stream_raises (edge_stream w1 text EDGE_TTS_VOICE)
    = stream_raises (edge_stream w2 text EDGE_TTS_VOICE) ->
    filter is_audio (yielded (edge_stream w1 text EDGE_TTS_VOICE))
    = filter is_audio (yielded (edge_stream w2 text EDGE_TTS_VOICE)) ->
    _edge_tts w1 text st = _edge_tts w2 text st.
Proof.
  intros w1 w2 text st Hend Haudio.
  unfold _edge_tts. run_m.
  rewrite (stream_loop_filter (yielded (edge_stream w1 text EDGE_TTS_VOICE))),
    (stream_loop_filter (yielded (edge_stream w2 text EDGE_TTS_VOICE))).
  now rewrite Hend, Haudio.
Qed.

Lemma edge_tts_reads_audio_chunks_only_witness :
  _edge_tts Examples.all_up "stay calm" initial_state
  = _edge_tts
      (Examples.vendors PostRequestError PostRequestError
         {| yielded :=
              [ {| chunk_type := "audio"; chunk_data := Some [x49; x44]%byte |};
                {| chunk_type := "audio"; chunk_data := Some [x33]%byte |};
                {| chunk_type := "SentenceBoundary"; chunk_data := None |} ];
            stream_raises := false |})
      "stay calm" initial_state.
Proof.
  exact (edge_tts_reads_audio_chunks_only
           Examples.all_up
           (Examples.vendors PostRequestError PostRequestError
              {| yielded :=
                   [ {| chunk_type := "audio";
                        chunk_data := Some [x49; x44]%byte |};
                     {| chunk_type := "audio"; chunk_data := Some [x33]%byte |};
                     {| chunk_type := "SentenceBoundary";
                        chunk_data := None |} ];
                 stream_raises := false |})
           "stay calm" initial_state eq_refl eq_refl).
Defined.

(** X13.  [_edge_tts] returns audio exactly when the stream ends normally,
    every audio chunk carries data and the data is not empty; the audio is
    then the data of the audio chunks in order.  In every other case (the
    stream raises, even after audio was received; an audio chunk has no
    data; there is no audio data) it returns [None]. *)
Theorem edge_tts_result :
  forall (w : world) (text : string) (st : state) (audio : bytes),
    (value (_edge_tts w text st) = Returns (Some audio)
     <-> stream_raises (edge_stream w text EDGE_TTS_VOICE) = false
         /\ audio_chunks_have_data (yielded (edge_stream w text EDGE_TTS_VOICE))
            = true
         /\ audio = audio_data (yielded (edge_stream w text EDGE_TTS_VOICE))
         /\ audio <> [])
    /\ (value (_edge_tts w text st) = Returns None
        <-> stream_raises (edge_stream w text EDGE_TTS_VOICE) = true
            \/ audio_chunks_have_data
                 (yielded (edge_stream w text EDGE_TTS_VOICE)) = false
            \/ audio_data (yielded (edge_stream w text EDGE_TTS_VOICE)) = []).
Proof.
  intros w text st audio. split; split.
  - apply _edge_tts_some.
  - intros [Hend [Hdata [-> Hne]]]. now apply _edge_tts_audio.
  - intros Hnone.
    destruct (stream_raises (edge_stream w text EDGE_TTS_VOICE)) eqn:Hend;
      [now left | right].
    destruct (audio_chunks_have_data
                (yielded (edge_stream w text EDGE_TTS_VOICE))) eqn:Hdata;
      [right | now left].
    destruct (audio_data (yielded (edge_stream w text EDGE_TTS_VOICE)))
      as [| b rest] eqn:Haudio; [reflexivity | exfalso].
    pose proof (_edge_tts_audio w text st Hend Hdata) as Hsome.
    cbv zeta in Hsome. rewrite Haudio, Hnone in Hsome.
    now specialize (Hsome ltac:(discriminate)).
  - intros Hcase.
    destruct (_edge_tts_value w text st) as [Hnone | [out [_ Hsome]]];
      [exact Hnone | exfalso].
    destruct (_edge_tts_some w text st out Hsome) as [Hend [Hdata [-> Hne]]].
    destruct Hcase as [H | [H | H]]; congruence.
Qed.

(** ** Extensions *)

Lemma split_last_dot_some (s : string) :
  str_in "." s = true ->
  exists before after,
    split_last_dot s = Some (before, after)
    /\ s = before ++ "." ++ after
    /\ str_in "." after = false.
Proof.
  induction s as [| c s IH]; [discriminate |].
  rewrite str_in_dot_cons. cbn [split_last_dot].
  destruct (str_in "." s) eqn:Hs.
  - intros _. destruct (IH eq_refl) as [before [after [-> [-> Hafter]]]].
    exists (String c before), after. now repeat split.
  - rewrite orb_false_r. intros Hc.
    rewrite (split_last_dot_no_dot s Hs), Hc.
    apply Ascii.eqb_eq in Hc. subst c.
    exists "", s. now repeat split.
Qed.

(** X14.  Whatever the filename, both STT helpers declare the same MIME
    type, and it is one of the six of the table: audio/wav, audio/mpeg,
    audio/webm, audio/ogg, audio/mp4, audio/flac. *)
Theorem sent_mime_is_known :
  forall (cfg : config) (audio_bytes : bytes) (filename : string),
    exists mime,
      sent_mime (_elevenlabs_stt_request cfg audio_bytes filename) = Some mime
      /\ sent_mime (_groq_whisper_stt_request cfg audio_bytes filename)
         = Some mime
      /\ In mime known_mime_types.
Proof.
  intros cfg audio_bytes filename.
  exists (spec_mime_type (extension filename)).
  split; [apply _elevenlabs_stt_sent_mime |].
  split; [apply _groq_whisper_stt_sent_mime |].
  unfold spec_mime_type, known_mime_types.
  repeat match goal with
         | |- context [String.eqb ?a ?b] => destruct (String.eqb a b)
         end; cbn [In]; tauto.
Qed.

(** X15.  A filename that ends with ['.'] has the empty extension, not
    ["wav"]: both STT helpers send it with the default ["audio/ogg"]. *)
Theorem trailing_dot_is_default :
  forall (cfg : config) (audio_bytes : bytes) (base : string),
    extension (base ++ ".") = ""
    /\ sent_mime (_elevenlabs_stt_request cfg audio_bytes (base ++ "."))
       = Some "audio/ogg"
    /\ sent_mime (_groq_whisper_stt_request cfg audio_bytes (base ++ "."))
       = Some "audio/ogg".
Proof.
  intros cfg audio_bytes base.
  assert (Hext : extension (base ++ ".") = "")
    by (change (base ++ ".") with (base ++ "." ++ "");
        now rewrite extension_append).
  rewrite _elevenlabs_stt_sent_mime, _groq_whisper_stt_sent_mime, Hext.
  now repeat split.
Qed.

(** X16.  The extension computed from a filename never contains a ['.'] and
    is in lower case; when the filename contains a ['.'], it is the
    lower-cased part after the last one: the filename is a base, a ['.'] and
    a dot-free suffix, and the extension is that suffix in lower case. *)
Theorem extension_is_last_suffix :
  forall (filename : string),
    str_in "." (extension filename) = false
    /\ lower (extension filename) = extension filename
    /\ (str_in "." filename = true ->
        exists base suffix,
          filename = base ++ "." ++ suffix
          /\ str_in "." suffix = false
          /\ extension filename = lower suffix).
Proof.
  intros filename. unfold extension, rsplit_dot_1.
  destruct (str_in "." filename) eqn:Hdot.
  - destruct (split_last_dot_some filename Hdot)
      as [base [suffix [-> [Hname Hsuffix]]]].
    cbn [last_item last].
    rewrite str_in_dot_lower, lower_idempotent.
    repeat split; [exact Hsuffix |].
    intros _. now exists base, suffix.
  - repeat split. discriminate.
Qed.

Lemma extension_is_last_suffix_witness :
  exists base suffix,
    "voice.note.M4A" = base ++ "." ++ suffix
    /\ str_in "." suffix = false
    /\ extension "voice.note.M4A" = lower suffix.
Proof.
  exact (proj2 (proj2 (extension_is_last_suffix "voice.note.M4A")) eq_refl).
Defined.

(** ** The marker and the settings *)

Lemma prefix_append (needle rest : string) :
  String.prefix needle (needle ++ rest) = true.
Proof.
  induction needle as [| c needle IH]; cbn [append String.prefix].
  - now destruct rest.
  - now destruct (ascii_dec c c).
Qed.

Lemma str_in_prefix (needle hay : string) :
  String.prefix needle hay = true -> str_in needle hay = true.
Proof. intros H. destruct hay; cbn [str_in]; now rewrite H. Qed.

Lemma str_in_cons (needle hay : string) (c : ascii) :
  str_in needle hay = true -> str_in needle (String c hay) = true.
Proof.
  intros H. cbn [str_in].
  now destruct (String.prefix needle (String c hay)).
Qed.

(** [needle in pre + needle + post]. *)
Lemma str_in_append (needle pre post : string) :
  str_in needle (pre ++ needle ++ post) = true.
Proof.
  induction pre as [| c pre IH]; cbn [append].
  - apply str_in_prefix, prefix_append.
  - now apply str_in_cons.
Qed.

(** X17.  The marker blocks wherever it stands in the body of an error
    response, whatever the error status: when a call sends its request to
    ElevenLabs and the answer has a status outside 200..299 and a body of
    the form [pre ++ "unusual_activity" ++ post], the call ends with the
    flag set, in the STT chain and in the TTS chain alike. *)
Theorem marker_blocks_anywhere_in_error_body :
  forall (cfg : config) (w : world) (c : call) (st : state) (r : response)
         (pre post : string),
    tries_primary cfg c st = true ->
    http_post w (primary_request cfg c) = PostResponse r ->
    is_success r = false ->
    Response.text r = pre ++ "unusual_activity" ++ post ->
    final (serve cfg w c st) = blocked_state.
Proof.
  intros cfg w c st r pre post Hgate Hpost Herr Hbody.
  rewrite (state_eta (final (serve cfg w c st))), serve_flag, Hgate, Hpost.
  cbn [blocks andb]. rewrite Herr, Hbody, str_in_append.
  cbn [negb andb orb]. now rewrite orb_true_r.
Qed.

Lemma marker_blocks_anywhere_in_error_body_witness :
  final (serve Examples.configured
           (Examples.vendors
              (PostResponse
                 (Examples.answer 403
                    "status: detected_unusual_activity, retry later" None))
              PostRequestError Examples.silent_stream)
           (Synthesize "stay calm") initial_state)
  = blocked_state.
Proof.
  exact (marker_blocks_anywhere_in_error_body
           Examples.configured
           (Examples.vendors
              (PostResponse
                 (Examples.answer 403
                    "status: detected_unusual_activity, retry later" None))
              PostRequestError Examples.silent_stream)
           (Synthesize "stay calm") initial_state
           (Examples.answer 403
              "status: detected_unusual_activity, retry later" None)
           "status: detected_" ", retry later"
           eq_refl eq_refl eq_refl eq_refl).
Defined.

(** X18.  The setting ELEVENLABS_TTS_URL is read by neither entry point.
    [text_to_speech] depends on the configuration through the ElevenLabs key
    and the voice only, [transcribe_audio] through the ElevenLabs key, the
    STT URL and Groq's key only: two configurations that agree on those give
    the same run. *)
Theorem settings_read :
  forall (cfg cfg' : config) (w : world) (st : state),
    ELEVENLABS_API_KEY cfg = ELEVENLABS_API_KEY cfg' ->
    (ELEVENLABS_VOICE_ID cfg = ELEVENLABS_VOICE_ID cfg' ->
     forall text,
       text_to_speech cfg w text st = text_to_speech cfg' w text st)
    /\ (ELEVENLABS_STT_URL cfg = ELEVENLABS_STT_URL cfg' ->
        GROQ_API_KEY cfg = GROQ_API_KEY cfg' ->
        forall audio_bytes filename,
          transcribe_audio cfg w audio_bytes filename st
          = transcribe_audio cfg' w audio_bytes filename st).
Proof.
  intros [key stt_url tts_url voice groq] [key' stt_url' tts_url' voice' groq']
    w st.
  cbn [ELEVENLABS_API_KEY ELEVENLABS_VOICE_ID ELEVENLABS_STT_URL GROQ_API_KEY].
  intros <-. split.
  - intros <- text. reflexivity.
  - intros <- <- audio_bytes filename. reflexivity.
Qed.

Lemma settings_read_witness :
  text_to_speech Examples.configured Examples.all_up "stay calm" initial_state
  = text_to_speech
      {| ELEVENLABS_API_KEY := Some "xi-key";
         ELEVENLABS_STT_URL := None;
         ELEVENLABS_TTS_URL := Some "https://tts.example/v2";
         ELEVENLABS_VOICE_ID := Some "voice-1";
         GROQ_API_KEY := None |}
      Examples.all_up "stay calm" initial_state.
Proof.
  exact (proj1 (settings_read
                  Examples.configured
                  {| ELEVENLABS_API_KEY := Some "xi-key";
                     ELEVENLABS_STT_URL := None;
                     ELEVENLABS_TTS_URL := Some "https://tts.example/v2";
                     ELEVENLABS_VOICE_ID := Some "voice-1";
                     GROQ_API_KEY := None |}
                  Examples.all_up initial_state eq_refl)
           eq_refl "stay calm").
Defined.

(** ** The flag after a run *)

Lemma tries_primary_unblocked (cfg : config) (c : call) (st : state) :
  _elevenlabs_blocked st = false ->
  tries_primary cfg c st = primary_configured cfg c.
Proof.
  intros Hb. destruct c; cbn [tries_primary primary_configured]; rewrite Hb;
    cbn [negb andb]; [apply andb_true_r | reflexivity].
Qed.

(** X19.  The flag after a run of calls, in closed form: it is set exactly
    when it was set at the start, or the run holds a call for which
    ElevenLabs is configured and whose request gets a blocking answer.  The
    order of the calls, their results and what Groq or Edge-TTS answer play
    no part. *)
Theorem flag_after_a_run :
  forall (cfg : config) (calls : list (world * call)) (st : state),
    _elevenlabs_blocked (after cfg calls st)
    = _elevenlabs_blocked st || existsb (would_block cfg) calls.
Proof.
  intros cfg calls.
  induction calls as [| [w c] calls IH]; intros st; cbn [after existsb].
  - now rewrite orb_false_r.
  - rewrite IH, serve_flag. unfold would_block at 2. cbn [fst snd].
    destruct (_elevenlabs_blocked st) eqn:Hb; cbn [orb].
    + reflexivity.
    + now rewrite (tries_primary_unblocked cfg c st Hb).
Qed.
